(** * backend/usfm_checker.py: the USFM sweep, its classifier and retention

    A shallow embedding of [backend/usfm_checker.py]:
    [resource_types_and_names], [log_event], [delete_asset], [main] and
    [usfm_check_for_lang].  Python values are modelled as follows.

    - [str] is [string], the sequence of its characters, so that [len] is
      [String.length]; [<] on strings is lexicographic on the characters
      ([String.ltb]).
    - [Optional[str]] is [option string]; Python truthiness ([not x]) of such a
      value is [truthy]: [None] and the empty string are both false.
    - A call that may raise returns a [result]; the imports of the module
      ([resource_lookup], [parsing], [file_utils], [settings]) are the classes
      [Collaborators] and [Settings].
    - The process state is a [World]: the file system, the diagnostic log and
      the sequence of calls made to the collaborators. *)

From Stdlib Require Import String Ascii List Sorted Permutation.
From stdpp Require Import gmap strings list.

(** ** Python strings *)

Module Py.

(** [str.split(sep)] for a one character separator. *)
Fixpoint split (sep : ascii) (s : string) : list string :=
  match s with
  | EmptyString => [EmptyString]
  | String c s' =>
      if Ascii.eqb c sep then EmptyString :: split sep s'
      else match split sep s' with
           | [] => [String c EmptyString]
           | w :: ws => String c w :: ws
           end
  end.

(** [sep.join(parts)]. *)
Definition join (sep : string) (parts : list string) : string :=
  String.concat sep parts.

(** [not x] is [negb (truthy x)] for an [Optional[str]]. *)
Definition truthy (x : option string) : bool :=
  match x with
  | None => false
  | Some s => negb (String.eqb s "")
  end.

(** [x in xs] for a sequence of strings. *)
Definition str_in (x : string) (xs : list string) : bool :=
  existsb (String.eqb x) xs.

(** ["{} ({})".format(a, b)]. *)
Definition format_paren (a b : string) : string :=
  a +:+ " (" +:+ b +:+ ")".

(** [sorted(l, key=key)]: a stable sort that compares keys with [<] only.
    An element is put in front of the first element of the sorted tail whose
    key is not smaller, so equal keys keep their input order. *)
Fixpoint insert_by {A} (key : A → string) (x : A) (l : list A) : list A :=
  match l with
  | [] => [x]
  | y :: l' =>
      if String.ltb (key y) (key x) then y :: insert_by key x l'
      else x :: l
  end.

Definition sorted {A} (key : A → string) (l : list A) : list A :=
  foldr (insert_by key) [] l.

End Py.

(** ** pathlib: pure POSIX paths *)

Module Pathlib.

(** A parsed path: the root (empty, ["/"] or ["//"]) and the components
    after it.  [PurePosixPath._parts] is the root followed by [parts]. *)
Record PurePath := mkPath { root : string; parts : list string }.

(** Number of leading separators of a string. *)
Fixpoint leading_seps (s : string) : nat :=
  match s with
  | String "/" s' => S (leading_seps s')
  | _ => 0
  end.

(** [splitroot]: exactly two leading slashes are kept as the root ["//"],
    any other positive number collapses to ["/"]. *)
Definition splitroot (s : string) : string :=
  match leading_seps s with
  | 0 => ""
  | 2 => "//"
  | _ => "/"
  end.

(** A component is kept when it is neither empty nor ["."]. *)
Definition keep_part (x : string) : bool :=
  negb (String.eqb x "") && negb (String.eqb x ".").

(** [Path(s)]. *)
Definition Path (s : string) : PurePath :=
  {| root := splitroot s;
     parts := List.filter keep_part (Py.split "/" s) |}.

(** [p.name]: the final component, empty when there is none. *)
Definition name (p : PurePath) : string :=
  List.last (parts p) "".

(** [p.parent]: the path without its final component; a path without
    components is its own parent. *)
Definition parent (p : PurePath) : PurePath :=
  {| root := root p; parts := List.removelast (parts p) |}.

(** [p.is_absolute()]. *)
Definition is_absolute (p : PurePath) : bool :=
  negb (String.eqb (root p) "").

(** [p.absolute()], with [cwd] the result of [os.getcwd()]. *)
Definition absolute (cwd : string) (p : PurePath) : PurePath :=
  if is_absolute p then p
  else {| root := root (Path cwd); parts := parts (Path cwd) ++ parts p |}.

(** [str(p)]. *)
Definition str (p : PurePath) : string :=
  match root p, parts p with
  | EmptyString, [] => "."
  | r, ps => r +:+ Py.join "/" ps
  end.

End Pathlib.

(** ** The file system *)

Module Fs.

(** A file system is the set of its nodes, each the list of components
    from the root. *)
Abbreviation FS := (gset (list string)).

(** One step of path resolution: [".."] goes up (and stays at the root),
    any other component goes down. *)
Definition walk (node : list string) (x : string) : list string :=
  if String.eqb x ".." then List.removelast node else node ++ [x].

(** The node a path string names for the operating system, in a process
    whose working directory is [cwd]. *)
Definition resolve (cwd s : string) : list string :=
  let p := Pathlib.Path s in
  let start := if Pathlib.is_absolute p then [] else Pathlib.parts (Pathlib.Path cwd) in
  fold_left walk (Pathlib.parts p) (fold_left walk start []).

(** [os.path.exists(s)]: the empty path names nothing, the root always
    exists. *)
Definition exists_ (cwd s : string) (fs : FS) : bool :=
  negb (String.eqb s "") &&
  (bool_decide (resolve cwd s = []) || bool_decide (resolve cwd s ∈ fs)).

(** Modelled from the spec: [delete_tree] of [document.utils.file_utils],
    the tree deletion primitive, which recursively removes a directory and
    its contents and is idempotent (no error if already absent). *)
Definition delete_tree (cwd s : string) (fs : FS) : FS :=
  filter (λ node, ¬ resolve cwd s `prefix_of` node) fs.

End Fs.

(** ** Data of the sweep *)

(** Exceptions.  [UnboundLocalError] is raised by the interpreter when a
    local variable is read before any assignment to it; every other
    exception comes from a collaborator. *)
Inductive Exn :=
| UnboundLocalError (variable : string)
| CollaboratorError (message : string).

Inductive result (A : Type) :=
| Ok (a : A)
| Raise (e : Exn).
Arguments Ok {A} a.
Arguments Raise {A} e.

(** A resource type record of the metadata feed: [{code, name}], where the
    source allows [name] to be missing. *)
Record ResourceTypeEntry := { rt_code : string; rt_name : option string }.

(** A language entry of the metadata feed: its [code] and its [contents]. *)
Record LangEntry := { code : string; contents : list ResourceTypeEntry }.

(** Modelled from the spec: the descriptor returned by the Asset Locator
    ([ResourceLookupDto] of [document.domain]), which exposes [lang_code],
    [book_code], [resource_type] and a fetch URL that may be absent. *)
Record ResourceLookupDto := {
  lang_code : string;
  resource_type : string;
  book_code : string;
  url : option string
}.

(** The mapping passed to [log_event] by the sweep. *)
Record Context := {
  event : string;
  resource_lookup_dto : ResourceLookupDto;
  content_file : option string;
  resource_dir : string
}.

(** Records of the diagnostic log: [logger.debug(context)] and
    [logger.exception(message)] with the exception being handled. *)
Inductive LogRecord :=
| Debug (context : Context)
| ExceptionTrace (message : string) (e : Exn).

(** Calls made to the collaborators, in the order they were made. *)
Inductive Call :=
| FetchSourceData (working_dir location : string)
| LangCodesAndNames
| BookCodesForLang (lang : string)
| UsfmResourceLookup (lang rtype book : string)
| ProvisionAssetFiles (dto : ResourceLookupDto)
| UsfmAssetFile (dto : ResourceLookupDto) (dir : string)
| UsfmAssetHtml (file : option string) (dto : ResourceLookupDto)
| DeleteTree (dir : string).

Record World := mkWorld {
  cwd : string;
  fs : Fs.FS;
  log : list LogRecord;
  calls : list Call
}.

(** [document.config.settings]. *)
Class Settings := {
  RESOURCE_ASSETS_DIR : string;
  ENGLISH_RESOURCE_TYPE_MAP : list (string * string);
  ID_RESOURCE_TYPE_MAP : list (string * string);
  TRANSLATIONS_JSON_LOCATION : string;
  USFM_RESOURCE_TYPES : list string;
  TN_RESOURCE_TYPES : list string;
  TQ_RESOURCE_TYPES : list string;
  TW_RESOURCE_TYPES : list string
}.

(** An external call: it may read and change the file system, and it
    returns or raises. *)
Definition External (A : Type) := Fs.FS → result A * Fs.FS.

(** [document.domain.resource_lookup] and [document.domain.parsing]. *)
Class Collaborators := {
  fetch_source_data : string → string → External (list LangEntry);
  lang_codes_and_names : External (list (string * string * bool));
  book_codes_for_lang : string → External (list (string * string));
  usfm_resource_lookup : string → string → string → External ResourceLookupDto;
  resource_directory : string → string → string → string;
  provision_asset_files : ResourceLookupDto → External string;
  usfm_asset_file : ResourceLookupDto → string → External (option string);
  usfm_asset_html : option string → ResourceLookupDto → External (option string)
}.

(** ** Computations: state and exceptions *)

Definition M (A : Type) := World → result A * World.

Definition ret {A} (a : A) : M A := λ w, (Ok a, w).

Definition bind {A B} (m : M A) (k : A → M B) : M B :=
  λ w, match m w with
       | (Ok a, w') => k a w'
       | (Raise e, w') => (Raise e, w')
       end.

Definition raise {A} (e : Exn) : M A := λ w, (Raise e, w).

Declare Scope py_scope.
Delimit Scope py_scope with py.
Notation "x <- m ;; k" := (bind m (λ x, k))
  (at level 100, m at next level, right associativity) : py_scope.
Notation "m ;; k" := (bind m (λ _, k))
  (at level 100, right associativity) : py_scope.
Open Scope py_scope.

(** The world after the call [c] left the file system as [fs']. *)
Definition record_call (w : World) (c : Call) (fs' : Fs.FS) : World :=
  {| cwd := cwd w; fs := fs'; log := log w; calls := calls w ++ [c] |}.

(** A call to a collaborator runs it on the file system and records it. *)
Definition call {A} (c : Call) (f : External A) : M A :=
  λ w, let '(r, fs') := f (fs w) in (r, record_call w c fs').

(** The world after [r] was written to the log. *)
Definition record_log (w : World) (r : LogRecord) : World :=
  {| cwd := cwd w; fs := fs w; log := log w ++ [r]; calls := calls w |}.

Definition emit (r : LogRecord) : M unit :=
  λ w, (Ok (), record_log w r).

(** [os.getcwd()] and [os.path.exists]. *)
Definition getcwd : M string := λ w, (Ok (cwd w), w).

Definition exists_ (path : string) : M bool :=
  λ w, (Ok (Fs.exists_ (cwd w) path (fs w)), w).

Definition delete_tree (dir : string) : M unit :=
  λ w, (Ok (), record_call w (DeleteTree dir) (Fs.delete_tree (cwd w) dir (fs w))).

(** [for x in xs: body(x)]. *)
Fixpoint for_each {A} (xs : list A) (body : A → M unit) : M unit :=
  match xs with
  | [] => ret ()
  | x :: xs' => body x ;; for_each xs' body
  end.

(** ** The program *)

Section Program.
Context `{cfg : Settings} `{ext : Collaborators}.

(** The list comprehension of lines 73-91: the records of [item] whose
    code is one of the configured codes, each as the pair of its code and
    ["{name} ({code})"], with the empty string for a missing name. *)
Definition resource_type_values (item : LangEntry) : list (string * string) :=
  map (λ resource_type,
         (rt_code resource_type,
          Py.format_paren (default "" (rt_name resource_type)) (rt_code resource_type)))
      (List.filter
         (λ resource_type,
            Py.str_in (rt_code resource_type)
              (USFM_RESOURCE_TYPES ++ TN_RESOURCE_TYPES ++
               TQ_RESOURCE_TYPES ++ TW_RESOURCE_TYPES))
         (contents item)).

(** The loop of lines 72-91.  The local [values] starts unbound ([None]) and
    every iteration assigns it afresh. *)
Definition assign_values (lang_code : string) (data : list LangEntry)
  : option (list (string * string)) :=
  fold_left (λ _ item, Some (resource_type_values item))
    (List.filter (λ lang, String.eqb (code lang) lang_code) data)
    None.

Definition resource_types_and_names (lang_code : string) : M (list (string * string)) :=
  if String.eqb lang_code "en" then ret ENGLISH_RESOURCE_TYPE_MAP
  else if String.eqb lang_code "id" then ret ID_RESOURCE_TYPE_MAP
  else
    data <- call (FetchSourceData RESOURCE_ASSETS_DIR TRANSLATIONS_JSON_LOCATION)
              (fetch_source_data RESOURCE_ASSETS_DIR TRANSLATIONS_JSON_LOCATION) ;;
    match assign_values lang_code data with
    | None => raise (UnboundLocalError "values")
    | Some values => ret (Py.sorted fst values)
    end.

Definition log_event (context : Context) : M unit :=
  emit (Debug context).

(** Line 100: [str(Path(resource_dir).parent.absolute())]. *)
Definition parent_dir_of (cwd resource_dir : string) : string :=
  Pathlib.str (Pathlib.absolute cwd (Pathlib.parent (Pathlib.Path resource_dir))).

Definition delete_asset (resource_dir dir_to_preserve : string) : M unit :=
  cwd <- getcwd ;;
  let parent_dir := parent_dir_of cwd resource_dir in
  if negb (String.eqb dir_to_preserve (Pathlib.name (Pathlib.Path parent_dir)))
  then delete_tree parent_dir
  else if negb (String.eqb dir_to_preserve (Pathlib.name (Pathlib.Path resource_dir)))
  then delete_tree resource_dir
  else ret ().

(** The text of line 180. *)
Definition failure_message : string := "Failed due to the following exception".

(** Lines 172-180: the two locals start as [None]; an exception anywhere in
    the [try] block is logged and leaves the locals as they were when it was
    raised. *)
Definition extract (resource_lookup_dto : ResourceLookupDto) (resource_dir : string)
  : M (option string * option string) :=
  λ w,
    let content_file := None in
    let html := None in
    match call (UsfmAssetFile resource_lookup_dto resource_dir)
            (usfm_asset_file resource_lookup_dto resource_dir) w with
    | (Raise e, w1) =>
        (emit (ExceptionTrace failure_message e) ;;
         ret (content_file, html)) w1
    | (Ok f, w1) =>
        let content_file := f in
        match call (UsfmAssetHtml content_file resource_lookup_dto)
                (usfm_asset_html content_file resource_lookup_dto) w1 with
        | (Raise e, w2) =>
            (emit (ExceptionTrace failure_message e) ;;
             ret (content_file, html)) w2
        | (Ok h, w2) =>
            let html := h in
            (Ok (content_file, html), w2)
        end
    end.

(** [html and not len(html) > 300]. *)
Definition short_html (html : option string) : bool :=
  match html with
  | None => false
  | Some s => Py.truthy html && negb (Nat.ltb 300 (String.length s))
  end.

(** Lines 181-226: the chain of conditions on [content_file] and [html]. *)
Definition classify_and_retain (resource_lookup_dto : ResourceLookupDto)
    (content_file : option string) (html : option string) (resource_dir : string)
  : M unit :=
  let context (kind : string) :=
    {| event := kind; resource_lookup_dto := resource_lookup_dto;
       content_file := content_file; resource_dir := resource_dir |} in
  if negb (Py.truthy content_file) then
    log_event (context "content_file is None")
  else if negb (Py.truthy html) then
    log_event (context "html is None")
  else if short_html html then
    log_event (context "len(html) <= 300")
  else
    log_event (context "parses to HTML fine") ;;
    delete_asset resource_dir "temp".

(** Lines 164-168: the canonical directory of a descriptor. *)
Definition canonical_directory (resource_lookup_dto : ResourceLookupDto) : string :=
  resource_directory (lang_code resource_lookup_dto)
    (book_code resource_lookup_dto) (resource_type resource_lookup_dto).

(** Lines 150-226: the body of the inner loop, for one language, one book
    and one USFM resource type. *)
Definition usfm_check_triple (lang_code_and_name : string * string * bool)
    (book_code : string * string) (usfm_resource_type_and_name : string * string)
  : M unit :=
  let lang := fst (fst lang_code_and_name) in
  let rtype := fst usfm_resource_type_and_name in
  let book := fst book_code in
  resource_lookup_dto <-
    call (UsfmResourceLookup lang rtype book) (usfm_resource_lookup lang rtype book) ;;
  let resource_dir := canonical_directory resource_lookup_dto in
  present <- exists_ resource_dir ;;
  if present then ret ()
  else
    resource_dir <-
      call (ProvisionAssetFiles resource_lookup_dto)
        (provision_asset_files resource_lookup_dto) ;;
    extracted <- extract resource_lookup_dto resource_dir ;;
    classify_and_retain resource_lookup_dto (fst extracted) (snd extracted) resource_dir.

Definition usfm_check_for_lang (lang_code_and_name : string * string * bool) : M unit :=
  all_types <- resource_types_and_names (fst (fst lang_code_and_name)) ;;
  let usfm_resource_types_and_names :=
    List.filter
      (λ resource_type_and_name,
         Py.str_in (fst resource_type_and_name) USFM_RESOURCE_TYPES)
      all_types in
  book_codes <-
    call (BookCodesForLang (fst (fst lang_code_and_name)))
      (book_codes_for_lang (fst (fst lang_code_and_name))) ;;
  for_each book_codes (λ book_code,
    for_each usfm_resource_types_and_names (λ usfm_resource_type_and_name,
      usfm_check_triple lang_code_and_name book_code usfm_resource_type_and_name)).

Definition main : M unit :=
  all_langs <- call LangCodesAndNames lang_codes_and_names ;;
  let heart_lang_codes_and_names :=
    List.filter (λ lang_code_and_name, negb (snd lang_code_and_name)) all_langs in
  for_each heart_lang_codes_and_names usfm_check_for_lang.

End Program.

(** ** The specification's vocabulary *)

(** The event kinds of the specification (section 4.3). *)
Inductive EventKind :=
| content_file_missing
| html_missing
| html_too_short
| parsed_ok.

(** The text the program logs for each kind. *)
Definition event_name (kind : EventKind) : string :=
  match kind with
  | content_file_missing => "content_file is None"
  | html_missing => "html is None"
  | html_too_short => "len(html) <= 300"
  | parsed_ok => "parses to HTML fine"
  end.

(** The classifier as the specification words it: a decision on absence
    and on the length of the HTML alone. *)
Definition spec_classifier (content_file html : option string) : EventKind :=
  match content_file, html with
  | None, _ => content_file_missing
  | Some _, None => html_missing
  | Some _, Some text =>
      if Nat.leb (String.length text) 300 then html_too_short else parsed_ok
  end.

(** The components of the specification (section 2) a call belongs to. *)
Inductive Component :=
| AssetLocator
| AssetProvisioner
| ContentExtractor
| Elsewhere.

Definition component (c : Call) : Component :=
  match c with
  | UsfmResourceLookup _ _ _ => AssetLocator
  | ProvisionAssetFiles _ => AssetProvisioner
  | UsfmAssetFile _ _ | UsfmAssetHtml _ _ => ContentExtractor
  | _ => Elsewhere
  end.

(** The pair the resolution builds from one feed record. *)
Definition code_and_label (entry : ResourceTypeEntry) : string * string :=
  (rt_code entry, default "" (rt_name entry) +:+ " (" +:+ rt_code entry +:+ ")").

(** The kind the chain of conditions of lines 181-226 arrives at. *)
Definition chain_kind (file html : option string) : EventKind :=
  if negb (Py.truthy file) then content_file_missing
  else if negb (Py.truthy html) then html_missing
  else if short_html html then html_too_short
  else parsed_ok.

(** The call the sweep makes to the Asset Locator for a triple. *)
Definition locator_call (lang : string * string * bool) (book rtype : string * string)
  : Call :=
  UsfmResourceLookup lang.1.1 rtype.1 book.1.

(** The order [sorted] leaves its result in: keys never decrease. *)
Definition key_le {A} (key : A → string) (a b : A) : Prop :=
  String.leb (key a) (key b) = true.

Section ResolutionVocabulary.
Context `{cfg : Settings}.

(** The call that fetches the metadata feed. *)
Definition fetch_call : Call :=
  FetchSourceData RESOURCE_ASSETS_DIR TRANSLATIONS_JSON_LOCATION.

(** The codes the resolution keeps. *)
Definition configured_codes : list string :=
  USFM_RESOURCE_TYPES ++ TN_RESOURCE_TYPES ++ TQ_RESOURCE_TYPES ++ TW_RESOURCE_TYPES.

(** The entries of the feed whose code is the language code, in feed order. *)
Definition matching (lang_code : string) (data : list LangEntry) : list LangEntry :=
  List.filter (λ lang, String.eqb (code lang) lang_code) data.

(** The records of an entry that bear a configured code, as pairs. *)
Definition kept_pairs (item : LangEntry) : list (string * string) :=
  map code_and_label
    (List.filter (λ entry, bool_decide (rt_code entry ∈ configured_codes)) (contents item)).

End ResolutionVocabulary.

(** The record the sweep logs for a kind. *)
Definition context_of (dto : ResourceLookupDto) (file : option string)
    (dir : string) (kind : EventKind) : Context :=
  {| event := event_name kind; resource_lookup_dto := dto;
     content_file := file; resource_dir := dir |}.

(** Where an exception can come from in the extraction step: locating the
    content file, or rendering the file that was located.  [file] is what
    the step is left with. *)
Inductive ExtractionFailure `{ext : Collaborators} (dto : ResourceLookupDto) (dir : string)
    (fs0 : Fs.FS) (e : Exn) : option string → Prop :=
| locating_raises fs1 :
    usfm_asset_file dto dir fs0 = (Raise e, fs1) →
    ExtractionFailure dto dir fs0 e None
| rendering_raises file fs1 fs2 :
    usfm_asset_file dto dir fs0 = (Ok file, fs1) →
    usfm_asset_html file dto fs1 = (Raise e, fs2) →
    ExtractionFailure dto dir fs0 e file.

(** ** A concrete deployment, for the examples *)

Module Scenario.

Definition settings : Settings := {|
  RESOURCE_ASSETS_DIR := "/working/temp";
  ENGLISH_RESOURCE_TYPE_MAP := [("ulb-wa", "Unlocked Literal Bible (ulb-wa)")];
  ID_RESOURCE_TYPE_MAP := [("ayt", "Bahasa Indonesian Bible (ayt)")];
  TRANSLATIONS_JSON_LOCATION := "http://example.org/translations.json";
  USFM_RESOURCE_TYPES := ["ulb"; "reg"];
  TN_RESOURCE_TYPES := ["tn"];
  TQ_RESOURCE_TYPES := ["tq"];
  TW_RESOURCE_TYPES := ["tw"]
|}.

Definition entry (c : string) (n : option string) : ResourceTypeEntry :=
  {| rt_code := c; rt_name := n |}.

Definition auh : LangEntry :=
  {| code := "auh";
     contents := [entry "ulb" (Some "Unlocked Literal Bible"); entry "obs" (Some "Stories");
                  entry "tn" (Some "Notes"); entry "reg" None] |}.

Definition abz : LangEntry :=
  {| code := "abz"; contents := [entry "reg" (Some "Regular")] |}.

(** An older entry for ["auh"], as a feed with a repeated code has it. *)
Definition auh_old : LangEntry :=
  {| code := "auh"; contents := [entry "udb" (Some "Dynamic"); entry "tq" None] |}.

Definition feed : list LangEntry := [auh; abz].
Definition feed_repeated : list LangEntry := [auh_old; abz; auh].

Definition dto (l r b : string) : ResourceLookupDto :=
  {| lang_code := l; resource_type := r; book_code := b;
     url := Some "http://example.org/repo" |}.

Definition directory (l r : string) : string := "/working/temp/" +:+ l +:+ "_" +:+ r.

Definition returns {A} (a : A) : External A := λ fs, (Ok a, fs).
Definition raises {A} (e : Exn) : External A := λ fs, (Raise e, fs).

Definition outcome {A} (r : result A) : External A := λ fs, (r, fs).

(** Collaborators whose behaviour is fixed by the feed, by whether the
    locator works, and by what the two extraction steps do. *)
Definition collaborators (data : list LangEntry) (locator_up : bool)
    (file html : result (option string)) : Collaborators := {|
  fetch_source_data := λ _ _, returns data;
  lang_codes_and_names :=
    returns [("en", "English", true); ("auh", "Aushi", false); ("abz", "Abaza", false)];
  book_codes_for_lang := λ _, returns [("gen", "Genesis"); ("exo", "Exodus")];
  usfm_resource_lookup := λ l r b,
    if locator_up then returns (dto l r b)
    else raises (CollaboratorError "no route to host");
  resource_directory := λ l b r, directory l r;
  provision_asset_files := λ d fs,
    (Ok (directory (lang_code d) (resource_type d)),
     {[ ["working"; "temp"; lang_code d +:+ "_" +:+ resource_type d] ]} ∪ fs);
  usfm_asset_file := λ _ _, outcome file;
  usfm_asset_html := λ _ _, outcome html
|}.

(** ["x" * n]. *)
Fixpoint xs (n : nat) : string :=
  match n with 0 => "" | S n' => String "x" (xs n') end.

(** A first run, and a run resumed after ["auh"]/["ulb"] was provisioned. *)
Definition fresh : World :=
  {| cwd := "/"; fs := {[ ["working"]; ["working"; "temp"] ]}; log := []; calls := [] |}.

Definition resumed : World :=
  {| cwd := "/";
     fs := {[ ["working"]; ["working"; "temp"]; ["working"; "temp"; "auh_ulb"] ]};
     log := []; calls := [] |}.

(** A world where the resource directory itself bears the preserved name. *)
Definition scratch : World :=
  {| cwd := "/";
     fs := {[ ["a"]; ["a"; "temp"]; ["a"; "temp"; "gen.usfm"] ]};
     log := []; calls := [] |}.

Definition lang : string * string * bool := ("auh", "Aushi", false).
Definition gen : string * string := ("gen", "Genesis").
Definition ulb : string * string := ("ulb", "Unlocked Literal Bible (ulb)").

(** Everything works; the rendered text is 500 characters long. *)
Definition steady : Collaborators :=
  collaborators feed true (Ok (Some "/working/temp/auh_ulb/gen.usfm")) (Ok (Some (xs 500))).

(** The Asset Locator cannot be reached. *)
Definition locator_down : Collaborators :=
  collaborators feed false (Ok (Some "/working/temp/auh_ulb/gen.usfm")) (Ok (Some (xs 500))).

(** The content file is found and rendering it raises. *)
Definition render_crash : Collaborators :=
  collaborators feed true (Ok (Some "/working/temp/auh_ulb/gen.usfm"))
    (Raise (CollaboratorError "unknown marker")).

(** The feed lists ["auh"] twice. *)
Definition repeated : Collaborators :=
  collaborators feed_repeated true (Ok None) (Ok None).

(** The feed lacks ["abz"], which the language catalogue lists. *)
Definition partial_feed : Collaborators :=
  collaborators [auh] true (Ok None) (Ok None).

End Scenario.

(** ** Well-formed paths *)

(** Whether a string contains the separator. *)
Fixpoint has_sep (s : string) : bool :=
  match s with
  | EmptyString => false
  | String c s' => Ascii.eqb c "/" || has_sep s'
  end.

(** A component as [Path] keeps them: not empty, not ["."], no separator. *)
Definition good_part (x : string) : bool :=
  Pathlib.keep_part x && negb (has_sep x).

(** The paths [Path] builds: one of the three roots and good components. *)
Definition normal (p : Pathlib.PurePath) : Prop :=
  (Pathlib.root p = "" ∨ Pathlib.root p = "/" ∨ Pathlib.root p = "//") ∧
  Forall (λ x, good_part x = true) (Pathlib.parts p).

(** The components of the absolute path of a directory, for a process whose
    working directory is [cwd]. *)
Definition components (cwd dir : string) : list string :=
  Pathlib.parts (Pathlib.absolute cwd (Pathlib.Path dir)).

(** No component steps up to a parent. *)
Definition no_dotdot (ps : list string) : Prop := Forall (λ x, x ≠ "..") ps.

(** ** Vocabulary of the call trace and of the log *)

Definition is_lookup (c : Call) : bool :=
  match c with UsfmResourceLookup _ _ _ => true | _ => false end.

(** The calls to the Asset Locator among [cs], in order. *)
Definition lookups (cs : list Call) : list Call := List.filter is_lookup cs.

Definition is_provision (c : Call) : bool :=
  match c with ProvisionAssetFiles _ => true | _ => false end.

(** How many calls to the provisioner [cs] holds. *)
Definition provisions (cs : list Call) : nat := length (List.filter is_provision cs).

Definition is_event (r : LogRecord) : bool :=
  match r with Debug _ => true | ExceptionTrace _ _ => false end.

(** How many event records (those written by [log_event]) a log holds. *)
Definition events (l : list LogRecord) : nat := length (List.filter is_event l).

(** The calls that can follow the Asset Locator within one triple. *)
Definition follows_locator (c : Call) : bool :=
  match c with
  | ProvisionAssetFiles _ | UsfmAssetFile _ _ | UsfmAssetHtml _ _ | DeleteTree _ => true
  | _ => false
  end.

(** The world [w'] continues [w]: the trace and the log only grew, by calls
    that all satisfy [P]; the new event records are at most as many as the
    new calls to the provisioner, and exactly as many when [exact]. *)
Definition grows (P : Call → Prop) (exact : bool) (w w' : World) : Prop :=
  ∃ new logs,
    calls w' = calls w ++ new ∧
    log w' = log w ++ logs ∧
    cwd w' = cwd w ∧
    Forall P new ∧
    (if exact then events logs = provisions new else events logs ≤ provisions new).

(** A computation whose every run continues the world it starts from, and
    does so exactly when it returns. *)
Definition steps {A} (P : Call → Prop) (m : M A) : Prop :=
  ∀ w, grows P false w (m w).2 ∧ (∀ a, (m w).1 = Ok a → grows P true w (m w).2).

(** A computation whose calls to the Asset Locator are, in order, an initial
    part of [plan], and all of [plan] when it returns. *)
Definition tracks {A} (m : M A) (plan : list Call) : Prop :=
  ∀ w, ∃ made,
    lookups (calls (m w).2) = lookups (calls w) ++ made ∧
    made `prefix_of` plan ∧
    (∀ a, (m w).1 = Ok a → made = plan).

(** The Asset Locator calls of the full cross product of books and resource
    types, books first. *)
Definition planned_lookups (code : string) (books types : list (string * string))
  : list Call :=
  flat_map (λ book, map (λ rtype, UsfmResourceLookup code rtype.1 book.1) types) books.

Section SweepVocabulary.
Context `{cfg : Settings}.

(** Line 135-139: the pairs whose code is a USFM resource type. *)
Definition usfm_only (types : list (string * string)) : list (string * string) :=
  List.filter (λ pair, Py.str_in pair.1 USFM_RESOURCE_TYPES) types.

(** The calls the sweep of the language [code] may make. *)
Definition language_call (code : string) (c : Call) : Prop :=
  match c with
  | UsfmResourceLookup l r _ => l = code ∧ r ∈ USFM_RESOURCE_TYPES
  | BookCodesForLang l => l = code
  | FetchSourceData dir location =>
      dir = RESOURCE_ASSETS_DIR ∧ location = TRANSLATIONS_JSON_LOCATION ∧
      code ≠ "en" ∧ code ≠ "id"
  | LangCodesAndNames => False
  | _ => True
  end.

(** The calls [main] may make after it obtained the catalogue [langs]. *)
Definition sweep_call (langs : list (string * string * bool)) (c : Call) : Prop :=
  match c with
  | UsfmResourceLookup l r _ =>
      (∃ name, (l, name, false) ∈ langs) ∧ r ∈ USFM_RESOURCE_TYPES
  | BookCodesForLang l => ∃ name, (l, name, false) ∈ langs
  | LangCodesAndNames => False
  | _ => True
  end.

End SweepVocabulary.

(** ** Further cases of the concrete deployment *)

Module Cases.
Import Scenario.

(** The language catalogue of the deployment. *)
Definition catalogue : list (string * string * bool) :=
  [("en", "English", true); ("auh", "Aushi", false); ("abz", "Abaza", false)].

(** A feed whose entry for ["auh"] has translation notes only. *)
Definition auh_notes : LangEntry :=
  {| code := "auh"; contents := [entry "tn" (Some "Notes"); entry "obs" None] |}.

Definition notes_only : Collaborators :=
  collaborators [auh_notes] true (Ok None) (Ok None).

(** A feed whose entry for ["auh"] has no record with a configured code. *)
Definition auh_stories : LangEntry :=
  {| code := "auh"; contents := [entry "obs" (Some "Stories")] |}.

Definition stories_only : Collaborators :=
  collaborators [auh_stories] true (Ok None) (Ok None).

(** No content file is found; the renderer would return a long text. *)
Definition no_file : Collaborators :=
  collaborators feed true (Ok None) (Ok (Some (xs 400))).

(** What the resolution returns for ["auh"] on the feed of the deployment. *)
Definition auh_types : list (string * string) :=
  [("reg", " (reg)"); ("tn", "Notes (tn)"); ("ulb", "Unlocked Literal Bible (ulb)")].

(** The world after the feed was fetched in a first run. *)
Definition fetched : World :=
  record_call fresh
    (FetchSourceData "/working/temp" "http://example.org/translations.json") (fs fresh).

(** The entry for ["auh"] with its records in the opposite order. *)
Definition auh_reversed : LangEntry :=
  {| code := "auh"; contents := rev (contents auh) |}.

(** A feed that depends on the file system: the cached copy, when there is
    one, lists the records of ["auh"] in the opposite order. *)
Definition cache : string := "/working/feed".

Definition cached_feed : Collaborators := {|
  fetch_source_data := λ _ _ fs,
    if Fs.exists_ "/" cache fs then (Ok [auh_reversed; abz], fs) else (Ok feed, fs);
  lang_codes_and_names := returns catalogue;
  book_codes_for_lang := λ _, returns [gen; ("exo", "Exodus")];
  usfm_resource_lookup := λ l r b, returns (dto l r b);
  resource_directory := λ l b r, directory l r;
  provision_asset_files := λ d, returns (directory (lang_code d) (resource_type d));
  usfm_asset_file := λ _ _, returns None;
  usfm_asset_html := λ _ _, returns None
|}.

(** A later run, with the feed in the cache. *)
Definition with_cache : World :=
  {| cwd := "/"; fs := {[ ["working"]; ["working"; "temp"]; ["working"; "feed"] ]};
     log := []; calls := [] |}.

End Cases.

(** ** Facts about Python's [in] and [sorted] *)

Lemma str_in_elem_of (x : string) (xs : list string) :
  Py.str_in x xs = bool_decide (x ∈ xs).
Proof.
  induction xs as [|y xs IH]; cbn [Py.str_in existsb].
  - symmetry. apply bool_decide_eq_false_2, not_elem_of_nil.
  - fold (Py.str_in x xs). rewrite IH.
    destruct (String.eqb_spec x y) as [->|Hne]; cbn [orb].
    + symmetry. apply bool_decide_eq_true_2. left.
    + apply bool_decide_ext. rewrite elem_of_cons.
      split; [by right | by intros [?|?]].
Qed.

Section Sorted.
Context {A : Type} (key : A → string).

Lemma ltb_false_leb (s t : string) : String.ltb s t = false → String.leb t s = true.
Proof.
  unfold String.ltb, String.leb. rewrite (String.compare_antisym t s).
  destruct (String.compare s t); simpl; congruence.
Qed.

Lemma ltb_true_leb (s t : string) : String.ltb s t = true → String.leb s t = true.
Proof.
  unfold String.ltb, String.leb. destruct (String.compare s t); congruence.
Qed.

Lemma compare_refl (s : string) : String.compare s s = Eq.
Proof.
  induction s as [|c s IH]; simpl; [done|].
  assert (Ascii.compare c c = Eq) as ->; [|done].
  unfold Ascii.compare. apply N.compare_refl.
Qed.

Lemma ltb_true_ne (s t : string) : String.ltb s t = true → s ≠ t.
Proof.
  unfold String.ltb. intros Hlt ->. by rewrite compare_refl in Hlt.
Qed.

Lemma insert_by_perm (x : A) (l : list A) : Py.insert_by key x l ≡ₚ x :: l.
Proof.
  induction l as [|y l IH]; simpl; [done|].
  destruct (String.ltb (key y) (key x)); [|done].
  rewrite IH. apply Permutation_swap.
Qed.

Lemma sorted_perm (l : list A) : Py.sorted key l ≡ₚ l.
Proof.
  induction l as [|x l IH]; simpl; [done|].
  rewrite insert_by_perm. by rewrite IH.
Qed.

Lemma insert_by_hd (y x : A) (l : list A) :
  key_le key y x → HdRel (key_le key) y l → HdRel (key_le key) y (Py.insert_by key x l).
Proof.
  intros Hyx Hyl. destruct l as [|z l]; simpl.
  - by constructor.
  - destruct (String.ltb (key z) (key x)); constructor; [|done].
    by inversion Hyl.
Qed.

Lemma insert_by_sorted (x : A) (l : list A) :
  Sorted (key_le key) l → Sorted (key_le key) (Py.insert_by key x l).
Proof.
  induction 1 as [|y l Hl IH Hhd]; simpl.
  - by repeat constructor.
  - destruct (String.ltb (key y) (key x)) eqn:Hlt.
    + constructor; [done|]. apply insert_by_hd; [|done].
      by apply ltb_true_leb.
    + constructor; [by constructor|]. constructor. by apply ltb_false_leb.
Qed.

Lemma sorted_sorted (l : list A) : Sorted (key_le key) (Py.sorted key l).
Proof.
  induction l as [|x l IH]; simpl; [constructor|].
  by apply insert_by_sorted.
Qed.

(** Stability: the elements of any one key come out in their input order. *)
Lemma insert_by_stable (c : string) (x : A) (l : list A) :
  List.filter (λ a, String.eqb (key a) c) (Py.insert_by key x l) =
  List.filter (λ a, String.eqb (key a) c) (x :: l).
Proof.
  induction l as [|y l IH]; [done|].
  cbn [Py.insert_by]. destruct (String.ltb (key y) (key x)) eqn:Hlt; [|done].
  cbn [List.filter] in *. rewrite IH.
  destruct (String.eqb_spec (key x) c) as [Hx|Hx]; [|done].
  destruct (String.eqb_spec (key y) c) as [Hy|Hy]; [|done].
  apply ltb_true_ne in Hlt. congruence.
Qed.

Lemma sorted_stable (c : string) (l : list A) :
  List.filter (λ a, String.eqb (key a) c) (Py.sorted key l) =
  List.filter (λ a, String.eqb (key a) c) l.
Proof.
  induction l as [|x l IH]; [done|].
  cbn [Py.sorted foldr]. rewrite insert_by_stable.
  cbn [List.filter]. fold (Py.sorted key l). by rewrite IH.
Qed.

End Sorted.

(** ** Retention: [delete_asset] *)

Lemma delete_asset_run (resource_dir keep : string) (w : World) :
  delete_asset resource_dir keep w =
    if negb (String.eqb keep
               (Pathlib.name (Pathlib.Path (parent_dir_of (cwd w) resource_dir))))
    then delete_tree (parent_dir_of (cwd w) resource_dir) w
    else if negb (String.eqb keep (Pathlib.name (Pathlib.Path resource_dir)))
    then delete_tree resource_dir w
    else (Ok (), w).
Proof.
  unfold delete_asset, bind, getcwd. cbn beta iota.
  by repeat case_match.
Qed.

(** [delete_asset] returns, and touches neither the log nor the working
    directory. *)
Lemma delete_asset_frame (resource_dir keep : string) (w : World) :
  ∃ w', delete_asset resource_dir keep w = (Ok (), w') ∧
        log w' = log w ∧ cwd w' = cwd w.
Proof.
  rewrite delete_asset_run. repeat case_match; by eexists.
Qed.

(** C5 (as stated) fails: the resource directory ["/a/temp"] bears the
    preserved name, its parent ["/a"] does not, so the parent is deleted and
    the directory named ["temp"] goes with it. *)
Lemma delete_asset_removes_preserved_name :
  Pathlib.name (Pathlib.Path "/a/temp") = "temp" ∧
  ["a"; "temp"] ∈ fs Scenario.scratch ∧
  calls (delete_asset "/a/temp" "temp" Scenario.scratch).2 = [DeleteTree "/a"] ∧
  ["a"; "temp"] ∉ fs (delete_asset "/a/temp" "temp" Scenario.scratch).2.
Proof.
  split; [reflexivity|].
  split; [apply (bool_decide_unpack _); by vm_compute|].
  split; [reflexivity|].
  apply (bool_decide_unpack _). by vm_compute.
Qed.

(** ** The classifier: lines 181-226 *)

Section Classifier.
Variables (dto : ResourceLookupDto) (file html : option string) (dir : string).

(** Each branch of the chain, run from a world [w]. *)
Lemma classify_no_file (w : World) :
  Py.truthy file = false →
  classify_and_retain dto file html dir w =
    log_event (context_of dto file dir content_file_missing) w.
Proof. intros Hf. unfold classify_and_retain. by rewrite Hf. Qed.

Lemma classify_no_html (w : World) :
  Py.truthy file = true → Py.truthy html = false →
  classify_and_retain dto file html dir w =
    log_event (context_of dto file dir html_missing) w.
Proof. intros Hf Hh. unfold classify_and_retain. by rewrite Hf, Hh. Qed.

Lemma classify_short (w : World) :
  Py.truthy file = true → Py.truthy html = true → short_html html = true →
  classify_and_retain dto file html dir w =
    log_event (context_of dto file dir html_too_short) w.
Proof. intros Hf Hh Hs. unfold classify_and_retain. by rewrite Hf, Hh, Hs. Qed.

Lemma classify_fine (w : World) :
  Py.truthy file = true → Py.truthy html = true → short_html html = false →
  classify_and_retain dto file html dir w =
    (log_event (context_of dto file dir parsed_ok) ;; delete_asset dir "temp") w.
Proof. intros Hf Hh Hs. unfold classify_and_retain. by rewrite Hf, Hh, Hs. Qed.

(** The chain never raises and logs exactly one record; unless that record
    is the success record, nothing else changes. *)
Lemma classify_logs_one (w : World) :
  ∃ w',
    classify_and_retain dto file html dir w = (Ok (), w') ∧
    log w' = log w ++ [Debug (context_of dto file dir (chain_kind file html))] ∧
    cwd w' = cwd w ∧
    (chain_kind file html ≠ parsed_ok → fs w' = fs w ∧ calls w' = calls w).
Proof.
  unfold chain_kind.
  destruct (Py.truthy file) eqn:Hf; cbn [negb].
  2: { eexists. rewrite classify_no_file by done. by cbn. }
  destruct (Py.truthy html) eqn:Hh; cbn [negb].
  2: { eexists. rewrite classify_no_html by done. by cbn. }
  destruct (short_html html) eqn:Hs.
  { eexists. rewrite classify_short by done. by cbn. }
  rewrite classify_fine by done.
  unfold bind, log_event, emit.
  destruct (delete_asset_frame dir "temp"
    (record_log w (Debug (context_of dto file dir parsed_ok))))
    as (w' & -> & Hlog & Hcwd).
  exists w'. by repeat split.
Qed.

End Classifier.

Lemma truthy_Some (s : string) : Py.truthy (Some s) = true ↔ s ≠ "".
Proof.
  unfold Py.truthy. destruct (String.eqb_spec s ""); cbn [negb]; split; congruence.
Qed.

Lemma short_html_Some (s : string) :
  s ≠ "" → short_html (Some s) = Nat.leb (String.length s) 300.
Proof.
  intros Hs. unfold short_html. rewrite (proj2 (truthy_Some s) Hs). cbn [andb].
  destruct (Nat.ltb_spec 300 (String.length s)), (Nat.leb_spec (String.length s) 300);
    cbn [negb]; (done || lia).
Qed.

(** The chain agrees with the specification's classifier wherever neither
    value is the empty string. *)
Lemma chain_kind_spec (file html : option string) :
  file ≠ Some "" → html ≠ Some "" → chain_kind file html = spec_classifier file html.
Proof.
  intros Hf Hh. unfold chain_kind, spec_classifier.
  destruct file as [f|]; [|done].
  assert (f ≠ "") as Hf' by congruence.
  rewrite (proj2 (truthy_Some f) Hf'). cbn [negb].
  destruct html as [h|]; [|done].
  assert (h ≠ "") as Hh' by congruence.
  rewrite (proj2 (truthy_Some h) Hh'). cbn [negb].
  by rewrite short_html_Some.
Qed.

(** The chain, case by case: an absent or empty content file, whatever the
    HTML; then absent or empty HTML; then the length of the HTML. *)
Lemma chain_kind_no_file (file html : option string) :
  file = None ∨ file = Some "" → chain_kind file html = content_file_missing.
Proof. by intros [-> | ->]. Qed.

Lemma chain_kind_no_html (file html : option string) :
  file ≠ None → file ≠ Some "" → html = None ∨ html = Some "" →
  chain_kind file html = html_missing.
Proof.
  intros Hn Hf Hh. destruct file as [f|]; [|done].
  unfold chain_kind. rewrite (proj2 (truthy_Some f)) by congruence.
  by destruct Hh as [-> | ->].
Qed.

Lemma chain_kind_length (file : option string) (text : string) :
  file ≠ None → file ≠ Some "" → text ≠ "" →
  chain_kind file (Some text) =
    if Nat.leb (String.length text) 300 then html_too_short else parsed_ok.
Proof.
  intros Hn Hf Ht. rewrite chain_kind_spec by congruence.
  by destruct file.
Qed.

(** C2 (as amended): the chain logs exactly one record, and its kind is a
    four-way decision on every input.  An absent or empty content file gives
    [content_file_missing] whatever the HTML; otherwise absent or empty HTML
    gives [html_missing]; otherwise a text of 1 to 300 characters gives
    [html_too_short] and a longer one [parsed_ok].  This is the decision of
    the specification whenever neither value is the empty string. *)
Theorem classifier_four_way (dto : ResourceLookupDto) (file html : option string)
    (dir : string) (w : World) :
  ∃ kind w',
    classify_and_retain dto file html dir w = (Ok (), w') ∧
    log w' = log w ++ [Debug (context_of dto file dir kind)] ∧
    (file ≠ Some "" → html ≠ Some "" → kind = spec_classifier file html) ∧
    (file = None ∨ file = Some "" → kind = content_file_missing) ∧
    (file ≠ None → file ≠ Some "" → html = None ∨ html = Some "" →
     kind = html_missing) ∧
    (∀ text, file ≠ None → file ≠ Some "" → html = Some text →
       1 ≤ String.length text ≤ 300 → kind = html_too_short) ∧
    (∀ text, file ≠ None → file ≠ Some "" → html = Some text →
       300 < String.length text → kind = parsed_ok).
Proof.
  destruct (classify_logs_one dto file html dir w) as (w' & Hrun & Hlog & _ & _).
  exists (chain_kind file html), w'.
  split; [done|]. split; [done|]. split; [apply chain_kind_spec|].
  split; [apply chain_kind_no_file|]. split; [apply chain_kind_no_html|].
  split.
  - intros text Hn Hf -> [Hlo Hhi]. rewrite chain_kind_length; [|done..|].
    + by rewrite (proj2 (Nat.leb_le _ _) Hhi).
    + intros ->. cbn in Hlo. lia.
  - intros text Hn Hf -> Hlen. rewrite chain_kind_length; [|done..|].
    + by rewrite (proj2 (Nat.leb_gt _ _) Hlen).
    + intros ->. cbn in Hlen. lia.
Qed.

(** C2 (as stated) fails at length 0: with a content file and the empty
    HTML text the specification's table says [html_too_short], the chain
    logs [html is None]. *)
Lemma classifier_empty_html_counterexample :
  spec_classifier (Some "gen.usfm") (Some "") = html_too_short ∧
  String.length "" ≤ 300 ∧
  log (classify_and_retain (Scenario.dto "auh" "ulb" "gen") (Some "gen.usfm") (Some "")
         "/working/temp/auh_ulb" Scenario.fresh).2
  = [Debug (context_of (Scenario.dto "auh" "ulb" "gen") (Some "gen.usfm")
              "/working/temp/auh_ulb" html_missing)] ∧
  event_name html_missing ≠ event_name html_too_short.
Proof. repeat split; [cbn; lia | done]. Qed.

(** C9: with a content file, the empty HTML text is classified exactly as
    absent HTML: the record logged is [html is None], and nothing is
    deleted. *)
Theorem empty_html_is_html_missing (dto : ResourceLookupDto) (file : option string)
    (dir : string) (w : World) :
  Py.truthy file = true →
  classify_and_retain dto file (Some "") dir w =
    (Ok (), record_log w (Debug (context_of dto file dir html_missing))) ∧
  classify_and_retain dto file (Some "") dir w = classify_and_retain dto file None dir w ∧
  event (context_of dto file dir html_missing) = "html is None".
Proof.
  intros Hf. by rewrite !classify_no_html.
Qed.

Lemma empty_html_is_html_missing_witness :
  Py.truthy (Some "gen.usfm") = true ∧
  classify_and_retain (Scenario.dto "auh" "ulb" "gen") (Some "gen.usfm") (Some "")
    "/working/temp/auh_ulb" Scenario.fresh =
  (Ok (), record_log Scenario.fresh
            (Debug (context_of (Scenario.dto "auh" "ulb" "gen") (Some "gen.usfm")
                      "/working/temp/auh_ulb" html_missing))).
Proof.
  split; [reflexivity|].
  apply (empty_html_is_html_missing (Scenario.dto "auh" "ulb" "gen") (Some "gen.usfm")
           "/working/temp/auh_ulb" Scenario.fresh).
  reflexivity.
Defined.

(** C6: the chain logs one record of one kind, and unless that kind is
    [parsed_ok] it makes no call to the tree deletion primitive and leaves
    the file system, the provisioned directory included, as it found it. *)
Theorem retention_only_on_parsed_ok (dto : ResourceLookupDto) (file html : option string)
    (dir : string) (w : World) :
  ∃ kind w',
    classify_and_retain dto file html dir w = (Ok (), w') ∧
    log w' = log w ++ [Debug (context_of dto file dir kind)] ∧
    (kind = content_file_missing ∨ kind = html_missing ∨ kind = html_too_short →
     fs w' = fs w ∧ calls w' = calls w ∧
     Fs.exists_ (cwd w') dir (fs w') = Fs.exists_ (cwd w) dir (fs w)) ∧
    (calls w' ≠ calls w → kind = parsed_ok).
Proof.
  destruct (classify_logs_one dto file html dir w)
    as (w' & Hrun & Hlog & Hcwd & Hkeep).
  exists (chain_kind file html), w'.
  split; [done|]. split; [done|]. split.
  - intros Hk.
    destruct Hkeep as [Hfs Hcalls]; [by destruct Hk as [->|[->| ->]]|].
    by rewrite Hfs, Hcwd.
  - intros Hcalls. destruct (chain_kind file html);
      [exfalso; by apply Hcalls, Hkeep..|done].
Qed.

(** ** The sweep: one triple *)

Section Sweep.
Context `{cfg : Settings} `{ext : Collaborators}.

Lemma call_run {A} (c : Call) (f : External A) (w : World) :
  call c f w = ((f (fs w)).1, record_call w c (f (fs w)).2).
Proof. unfold call. by destruct (f (fs w)). Qed.

(** The extraction step always returns; what it returns and logs is fixed
    by the first of its two calls that raises, if any. *)
Lemma extract_run (dto : ResourceLookupDto) (dir : string) (w : World) :
  extract dto dir w =
    match usfm_asset_file dto dir (fs w) with
    | (Raise e, fs1) =>
        (Ok (None, None),
         record_log (record_call w (UsfmAssetFile dto dir) fs1)
           (ExceptionTrace failure_message e))
    | (Ok file, fs1) =>
        match usfm_asset_html file dto fs1 with
        | (Raise e, fs2) =>
            (Ok (file, None),
             record_log
               (record_call (record_call w (UsfmAssetFile dto dir) fs1)
                  (UsfmAssetHtml file dto) fs2)
               (ExceptionTrace failure_message e))
        | (Ok html, fs2) =>
            (Ok (file, html),
             record_call (record_call w (UsfmAssetFile dto dir) fs1)
               (UsfmAssetHtml file dto) fs2)
        end
    end.
Proof.
  unfold extract. rewrite call_run.
  destruct (usfm_asset_file dto dir (fs w)) as [[file|e] fs1]; cbn [fst snd]; [|done].
  rewrite call_run. cbn [fs record_call].
  by destruct (usfm_asset_html file dto fs1) as [[html|e] fs2].
Qed.

Section Triple.
Variables (lang : string * string * bool) (book rtype : string * string).

(** The body of the inner loop, by what the locator, the existence test and
    the provisioner answer. *)
Lemma usfm_check_triple_run (w : World) :
  usfm_check_triple lang book rtype w =
    match usfm_resource_lookup lang.1.1 rtype.1 book.1 (fs w) with
    | (Raise e, fs1) => (Raise e, record_call w (locator_call lang book rtype) fs1)
    | (Ok dto, fs1) =>
        let w1 := record_call w (locator_call lang book rtype) fs1 in
        if Fs.exists_ (cwd w) (canonical_directory dto) fs1 then (Ok (), w1)
        else
          match provision_asset_files dto fs1 with
          | (Raise e, fs2) => (Raise e, record_call w1 (ProvisionAssetFiles dto) fs2)
          | (Ok dir, fs2) =>
              (extracted <- extract dto dir ;;
               classify_and_retain dto extracted.1 extracted.2 dir)
                (record_call w1 (ProvisionAssetFiles dto) fs2)
          end
    end.
Proof.
  unfold usfm_check_triple, locator_call. unfold bind at 1. rewrite call_run.
  destruct (usfm_resource_lookup lang.1.1 rtype.1 book.1 (fs w)) as [[dto|e] fs1];
    cbn [fst snd]; [|done].
  unfold bind at 1, exists_ at 1. cbn [cwd fs record_call].
  destruct (Fs.exists_ (cwd w) (canonical_directory dto) fs1); [done|].
  unfold bind at 1. rewrite call_run. cbn [fs record_call].
  by destruct (provision_asset_files dto fs1) as [[dir|e] fs2].
Qed.

(** Once a directory was provisioned the rest of the body returns. *)
Lemma extract_classify_returns (dto : ResourceLookupDto) (dir : string) (w : World) :
  ((extracted <- extract dto dir ;;
    classify_and_retain dto extracted.1 extracted.2 dir) w).1 = Ok ().
Proof.
  unfold bind. rewrite extract_run.
  destruct (usfm_asset_file dto dir (fs w)) as [[file|e] fs1].
  - destruct (usfm_asset_html file dto fs1) as [[html|e] fs2]; cbn [fst snd].
    + by destruct (classify_logs_one dto file html dir
        (record_call (record_call w (UsfmAssetFile dto dir) fs1)
           (UsfmAssetHtml file dto) fs2)) as (w' & -> & _).
    + by destruct (classify_logs_one dto file None dir
        (record_log (record_call (record_call w (UsfmAssetFile dto dir) fs1)
           (UsfmAssetHtml file dto) fs2) (ExceptionTrace failure_message e)))
        as (w' & -> & _).
  - cbn [fst snd].
    by destruct (classify_logs_one dto None None dir
      (record_log (record_call w (UsfmAssetFile dto dir) fs1)
         (ExceptionTrace failure_message e))) as (w' & -> & _).
Qed.

(** C1 (as amended): when the canonical directory of the descriptor the
    Asset Locator returns exists, the body of the loop has called the Asset
    Locator, once, and nothing else: no call to the provisioner or to the
    extractor, no log record, no deletion. *)
Theorem skip_existing_directory (w : World) (dto : ResourceLookupDto) (fs1 : Fs.FS) :
  usfm_resource_lookup lang.1.1 rtype.1 book.1 (fs w) = (Ok dto, fs1) →
  Fs.exists_ (cwd w) (canonical_directory dto) fs1 = true →
  ∃ w', usfm_check_triple lang book rtype w = (Ok (), w') ∧
        calls w' = calls w ++ [locator_call lang book rtype] ∧
        component (locator_call lang book rtype) = AssetLocator ∧
        log w' = log w ∧
        fs w' = fs1.
Proof.
  intros Hlookup Hexists. rewrite usfm_check_triple_run, Hlookup.
  cbn zeta. rewrite Hexists. by eexists.
Qed.

(** The body of the loop when one of the two extraction calls raises: the
    exception is logged, then the event for what the step is left with. *)
Lemma extraction_failure_run (w : World) (dto : ResourceLookupDto) (fs1 : Fs.FS)
    (dir : string) (fs2 : Fs.FS) (e : Exn) (file : option string) :
  usfm_resource_lookup lang.1.1 rtype.1 book.1 (fs w) = (Ok dto, fs1) →
  Fs.exists_ (cwd w) (canonical_directory dto) fs1 = false →
  provision_asset_files dto fs1 = (Ok dir, fs2) →
  ExtractionFailure dto dir fs2 e file →
  ∃ w', usfm_check_triple lang book rtype w = (Ok (), w') ∧
        log w' = log w ++
          [ExceptionTrace failure_message e;
           Debug (context_of dto file dir
                    (if Py.truthy file then html_missing else content_file_missing))].
Proof.
  intros Hlookup Hexists Hprov Hfail.
  rewrite usfm_check_triple_run, Hlookup. cbn zeta. rewrite Hexists, Hprov.
  unfold bind. rewrite extract_run. cbn [fs record_call].
  destruct Hfail as [fs3 Hfile | file fs3 fs4 Hfile Hhtml].
  - rewrite Hfile. cbn [fst snd].
    match goal with |- context [classify_and_retain _ _ _ _ ?w0] =>
      destruct (classify_logs_one dto None None dir w0) as (w' & -> & Hlog & _)
    end.
    exists w'. split; [done|]. rewrite Hlog. cbn [log record_log record_call].
    by rewrite <- app_assoc.
  - rewrite Hfile, Hhtml. cbn [fst snd].
    match goal with |- context [classify_and_retain _ _ _ _ ?w0] =>
      destruct (classify_logs_one dto file None dir w0) as (w' & -> & Hlog & _)
    end.
    exists w'. split; [done|]. rewrite Hlog. cbn [log record_log record_call].
    rewrite <- app_assoc. unfold chain_kind.
    by destruct (Py.truthy file).
Qed.

(** C3 (as amended): the body of the loop raises exactly when the Asset
    Locator raises or, for a directory that does not exist yet, the
    provisioner raises; it then raises their exception and has logged
    nothing.  Once a directory was provisioned it returns, whatever the two
    extraction calls do, and when one of them raises the log has gained the
    exception trace followed by the event for what the step was left
    with. *)
Theorem triple_failure_isolation (w : World) :
  match usfm_resource_lookup lang.1.1 rtype.1 book.1 (fs w) with
  | (Raise e, _) =>
      (usfm_check_triple lang book rtype w).1 = Raise e ∧
      log (usfm_check_triple lang book rtype w).2 = log w
  | (Ok dto, fs1) =>
      if Fs.exists_ (cwd w) (canonical_directory dto) fs1
      then (usfm_check_triple lang book rtype w).1 = Ok () ∧
           log (usfm_check_triple lang book rtype w).2 = log w
      else
        match provision_asset_files dto fs1 with
        | (Raise e, _) =>
            (usfm_check_triple lang book rtype w).1 = Raise e ∧
            log (usfm_check_triple lang book rtype w).2 = log w
        | (Ok dir, fs2) =>
            (usfm_check_triple lang book rtype w).1 = Ok () ∧
            ∀ e file, ExtractionFailure dto dir fs2 e file →
              log (usfm_check_triple lang book rtype w).2 = log w ++
                [ExceptionTrace failure_message e;
                 Debug (context_of dto file dir
                          (if Py.truthy file then html_missing
                           else content_file_missing))]
        end
  end.
Proof.
  destruct (usfm_resource_lookup lang.1.1 rtype.1 book.1 (fs w))
    as [[dto|e] fs1] eqn:Hlookup.
  2: { by rewrite usfm_check_triple_run, Hlookup. }
  destruct (Fs.exists_ (cwd w) (canonical_directory dto) fs1) eqn:Hexists.
  { rewrite usfm_check_triple_run, Hlookup. cbn zeta. by rewrite Hexists. }
  destruct (provision_asset_files dto fs1) as [[dir|e] fs2] eqn:Hprov.
  2: { rewrite usfm_check_triple_run, Hlookup. cbn zeta. by rewrite Hexists, Hprov. }
  split.
  - rewrite usfm_check_triple_run, Hlookup. cbn zeta. rewrite Hexists, Hprov.
    apply extract_classify_returns.
  - intros e file Hfail.
    destruct (extraction_failure_run w dto fs1 dir fs2 e file)
      as (w' & -> & Hlog); done.
Qed.

(** C7: an exception raised while locating the content file or while
    rendering it is caught and logged; the body of the loop then classifies
    what it is left with (no file, or the located file and no HTML), logs
    that and returns, so the loop goes on with the next resource type.  For
    a located file the record is [html is None]. *)
Theorem extraction_exceptions_are_caught (w : World) (dto : ResourceLookupDto)
    (fs1 : Fs.FS) (dir : string) (fs2 : Fs.FS) (e : Exn) (file : option string) :
  usfm_resource_lookup lang.1.1 rtype.1 book.1 (fs w) = (Ok dto, fs1) →
  Fs.exists_ (cwd w) (canonical_directory dto) fs1 = false →
  provision_asset_files dto fs1 = (Ok dir, fs2) →
  ExtractionFailure dto dir fs2 e file →
  ∃ w', usfm_check_triple lang book rtype w = (Ok (), w') ∧
        log w' = log w ++
          [ExceptionTrace failure_message e;
           Debug (context_of dto file dir
                    (if Py.truthy file then html_missing else content_file_missing))] ∧
        (∀ rest, for_each (rtype :: rest) (usfm_check_triple lang book) w =
                 for_each rest (usfm_check_triple lang book) w').
Proof.
  intros Hlookup Hexists Hprov Hfail.
  assert (∃ w', usfm_check_triple lang book rtype w = (Ok (), w') ∧
            log w' = log w ++
              [ExceptionTrace failure_message e;
               Debug (context_of dto file dir
                 (if Py.truthy file then html_missing else content_file_missing))])
    as (w' & Hrun & Hlog).
  { rewrite usfm_check_triple_run, Hlookup. cbn zeta. rewrite Hexists, Hprov.
    unfold bind. rewrite extract_run. cbn [fs record_call].
    destruct Hfail as [fs3 Hfile | file fs3 fs4 Hfile Hhtml].
    - rewrite Hfile. cbn [fst snd].
      match goal with |- context [classify_and_retain _ _ _ _ ?w0] =>
        destruct (classify_logs_one dto None None dir w0) as (w' & -> & Hlog & _)
      end.
      exists w'. split; [done|]. rewrite Hlog. cbn [log record_log record_call].
      by rewrite <- app_assoc.
    - rewrite Hfile, Hhtml. cbn [fst snd].
      match goal with |- context [classify_and_retain _ _ _ _ ?w0] =>
        destruct (classify_logs_one dto file None dir w0) as (w' & -> & Hlog & _)
      end.
      exists w'. split; [done|]. rewrite Hlog. cbn [log record_log record_call].
      rewrite <- app_assoc. unfold chain_kind.
      by destruct (Py.truthy file). }
  exists w'. split; [done|]. split; [done|].
  intros rest. cbn [for_each]. unfold bind at 1. by rewrite Hrun.
Qed.

End Triple.
End Sweep.

(** ** Resource type resolution *)

Section Resolution.
Context `{cfg : Settings} `{ext : Collaborators}.

Lemma resource_type_values_kept (item : LangEntry) :
  resource_type_values item = kept_pairs item.
Proof.
  unfold resource_type_values, kept_pairs, code_and_label, Py.format_paren.
  f_equal. apply List.filter_ext. intros entry. apply str_in_elem_of.
Qed.

Lemma matching_nil (lang_code : string) (data : list LangEntry) :
  (∀ entry, entry ∈ data → code entry ≠ lang_code) → matching lang_code data = [].
Proof.
  induction data as [|entry data IH]; intros Hnone; [done|].
  cbn [matching List.filter].
  destruct (String.eqb_spec (code entry) lang_code) as [Heq|_].
  - exfalso. apply (Hnone entry); [left|done].
  - apply IH. intros other Hin. apply Hnone. by right.
Qed.

Lemma assign_values_last (lang_code : string) (data earlier : list LangEntry)
    (item : LangEntry) :
  matching lang_code data = earlier ++ [item] →
  assign_values lang_code data = Some (kept_pairs item).
Proof.
  intros Hm. unfold assign_values. fold (matching lang_code data).
  rewrite Hm, fold_left_app. cbn [fold_left]. by rewrite resource_type_values_kept.
Qed.

(** The resolution for a language that is neither of the two gateway
    languages: fetch the feed, then sort what the loop assigned last. *)
Lemma resource_types_and_names_run (lang_code : string) (w : World)
    (data : list LangEntry) (fs1 : Fs.FS) :
  lang_code ≠ "en" → lang_code ≠ "id" →
  fetch_source_data RESOURCE_ASSETS_DIR TRANSLATIONS_JSON_LOCATION (fs w) = (Ok data, fs1) →
  resource_types_and_names lang_code w =
    match assign_values lang_code data with
    | None => (Raise (UnboundLocalError "values"), record_call w fetch_call fs1)
    | Some values => (Ok (Py.sorted fst values), record_call w fetch_call fs1)
    end.
Proof.
  intros Hen Hid Hfetch. unfold resource_types_and_names.
  destruct (String.eqb_spec lang_code "en"); [done|].
  destruct (String.eqb_spec lang_code "id"); [done|].
  unfold bind. rewrite call_run, Hfetch. cbn [fst snd].
  by destruct (assign_values lang_code data).
Qed.

(** C4 (what the code does): for a language that is neither gateway
    language and that no entry of the feed matches, the resolution raises
    [UnboundLocalError] for the local [values], and [usfm_check_for_lang]
    raises with it. *)
Theorem lookup_miss_raises (lang_code : string) (w : World)
    (data : list LangEntry) (fs1 : Fs.FS) :
  lang_code ≠ "en" → lang_code ≠ "id" →
  fetch_source_data RESOURCE_ASSETS_DIR TRANSLATIONS_JSON_LOCATION (fs w) = (Ok data, fs1) →
  (∀ entry, entry ∈ data → code entry ≠ lang_code) →
  (resource_types_and_names lang_code w).1 = Raise (UnboundLocalError "values") ∧
  ∀ name gateway,
    (usfm_check_for_lang (lang_code, name, gateway) w).1 = Raise (UnboundLocalError "values").
Proof.
  intros Hen Hid Hfetch Hnone.
  assert (resource_types_and_names lang_code w =
            (Raise (UnboundLocalError "values"), record_call w fetch_call fs1)) as Hrun.
  { rewrite (resource_types_and_names_run _ _ data fs1) by done.
    unfold assign_values. fold (matching lang_code data).
    by rewrite matching_nil. }
  split; [by rewrite Hrun|].
  intros name gateway. unfold usfm_check_for_lang, bind. cbn [fst snd].
  by rewrite Hrun.
Qed.

(** C8: for a language that is neither gateway language and that exactly one
    entry of the feed matches, the resolution returns the records of that
    entry that bear a configured code, each as the pair of its code and
    ["{name} ({code})"] (the name empty when the record has none): the same
    pairs, in ascending order of code, pairs of equal code in feed order. *)
Theorem resolution_of_listed_language (lang_code : string) (w : World)
    (data : list LangEntry) (fs1 : Fs.FS) (item : LangEntry) :
  lang_code ≠ "en" → lang_code ≠ "id" →
  fetch_source_data RESOURCE_ASSETS_DIR TRANSLATIONS_JSON_LOCATION (fs w) = (Ok data, fs1) →
  matching lang_code data = [item] →
  ∃ pairs,
    resource_types_and_names lang_code w = (Ok pairs, record_call w fetch_call fs1) ∧
    pairs ≡ₚ kept_pairs item ∧
    Sorted (key_le fst) pairs ∧
    ∀ c, List.filter (λ pair, String.eqb pair.1 c) pairs =
         List.filter (λ pair, String.eqb pair.1 c) (kept_pairs item).
Proof.
  intros Hen Hid Hfetch Hone.
  exists (Py.sorted fst (kept_pairs item)). split.
  - rewrite (resource_types_and_names_run _ _ data fs1) by done.
    by rewrite (assign_values_last lang_code data [] item).
  - split; [apply sorted_perm|]. split; [apply sorted_sorted|].
    intros c. apply sorted_stable.
Qed.

(** C10: when several entries of the feed match the language code, the
    resolution returns the sorted pairs of the last of them in feed order,
    whatever the earlier ones contain. *)
Theorem resolution_uses_last_match (lang_code : string) (w : World)
    (data : list LangEntry) (fs1 : Fs.FS) (earlier : list LangEntry) (item : LangEntry) :
  lang_code ≠ "en" → lang_code ≠ "id" →
  fetch_source_data RESOURCE_ASSETS_DIR TRANSLATIONS_JSON_LOCATION (fs w) = (Ok data, fs1) →
  matching lang_code data = earlier ++ [item] →
  resource_types_and_names lang_code w =
    (Ok (Py.sorted fst (kept_pairs item)), record_call w fetch_call fs1).
Proof.
  intros Hen Hid Hfetch Hlast.
  rewrite (resource_types_and_names_run _ _ data fs1) by done.
  by rewrite (assign_values_last lang_code data earlier item).
Qed.

End Resolution.

(** ** The theorems at work on the concrete deployment *)

Module Examples.
Import Scenario.

Lemma skip_existing_directory_witness :
  usfm_resource_lookup (Collaborators := steady) "auh" "ulb" "gen" (fs resumed)
    = (Ok (dto "auh" "ulb" "gen"), fs resumed) ∧
  Fs.exists_ (cwd resumed)
    (canonical_directory (ext := steady) (dto "auh" "ulb" "gen")) (fs resumed) = true ∧
  ∃ w', usfm_check_triple (ext := steady) lang gen ulb resumed = (Ok (), w') ∧
        calls w' = calls resumed ++ [UsfmResourceLookup "auh" "ulb" "gen"] ∧
        component (UsfmResourceLookup "auh" "ulb" "gen") = AssetLocator ∧
        log w' = log resumed ∧
        fs w' = fs resumed.
Proof.
  split; [reflexivity|]. split; [by vm_compute|].
  apply (skip_existing_directory (ext := steady) lang gen ulb resumed
           (dto "auh" "ulb" "gen") (fs resumed)).
  - reflexivity.
  - by vm_compute.
Defined.

(** C1 (as stated) fails: the directory of ["auh"], ["gen"], ["ulb"] exists,
    and the sweep has called the Asset Locator for that triple. *)
Lemma skip_calls_the_locator :
  Fs.exists_ (cwd resumed) (resource_directory (Collaborators := steady) "auh" "gen" "ulb")
    (fs resumed) = true ∧
  calls resumed = [] ∧
  calls (usfm_check_triple (ext := steady) lang gen ulb resumed).2
    = [UsfmResourceLookup "auh" "ulb" "gen"] ∧
  map component (calls (usfm_check_triple (ext := steady) lang gen ulb resumed).2)
    = [AssetLocator].
Proof. repeat split; by vm_compute. Qed.

(** C3 (as stated) fails: the Asset Locator raises for the first triple of
    ["auh"]; the exception leaves the body of the loop, then [main], and
    neither the other triples of ["auh"] nor the language ["abz"] are ever
    looked at. *)
Lemma locator_failure_aborts_sweep :
  (usfm_check_triple (ext := locator_down) lang gen ("reg", " (reg)") fresh).1
    = Raise (CollaboratorError "no route to host") ∧
  (main (cfg := settings) (ext := locator_down) fresh).1
    = Raise (CollaboratorError "no route to host") ∧
  calls (main (cfg := settings) (ext := locator_down) fresh).2
    = [LangCodesAndNames;
       FetchSourceData "/working/temp" "http://example.org/translations.json";
       BookCodesForLang "auh";
       UsfmResourceLookup "auh" "reg" "gen"].
Proof. repeat split; by vm_compute. Qed.

Lemma lookup_miss_raises_witness :
  (resource_types_and_names (cfg := settings) (ext := partial_feed) "abz" fresh).1
    = Raise (UnboundLocalError "values") ∧
  ∀ name gateway,
    (usfm_check_for_lang (cfg := settings) (ext := partial_feed)
       ("abz", name, gateway) fresh).1 = Raise (UnboundLocalError "values").
Proof.
  apply (lookup_miss_raises (cfg := settings) (ext := partial_feed)
           "abz" fresh [auh] (fs fresh)).
  - discriminate.
  - discriminate.
  - reflexivity.
  - intros entry Hin. apply list_elem_of_singleton in Hin as ->. discriminate.
Defined.

Lemma extraction_exceptions_are_caught_witness :
  ∃ w', usfm_check_triple (ext := render_crash) lang gen ulb fresh = (Ok (), w') ∧
        log w' = log fresh ++
          [ExceptionTrace failure_message (CollaboratorError "unknown marker");
           Debug (context_of (dto "auh" "ulb" "gen") (Some "/working/temp/auh_ulb/gen.usfm")
                    "/working/temp/auh_ulb" html_missing)] ∧
        (∀ rest, for_each (ulb :: rest) (usfm_check_triple (ext := render_crash) lang gen) fresh =
                 for_each rest (usfm_check_triple (ext := render_crash) lang gen) w').
Proof.
  apply (extraction_exceptions_are_caught (ext := render_crash) lang gen ulb fresh
           (dto "auh" "ulb" "gen") (fs fresh) "/working/temp/auh_ulb"
           ({[ ["working"; "temp"; "auh_ulb"] ]} ∪ fs fresh)
           (CollaboratorError "unknown marker") (Some "/working/temp/auh_ulb/gen.usfm")).
  - reflexivity.
  - by vm_compute.
  - reflexivity.
  - by eapply (rendering_raises (ext := render_crash)).
Defined.

Lemma resolution_of_listed_language_witness :
  ∃ pairs,
    resource_types_and_names (cfg := settings) (ext := steady) "auh" fresh
      = (Ok pairs, record_call fresh (fetch_call (cfg := settings)) (fs fresh)) ∧
    pairs ≡ₚ kept_pairs (cfg := settings) auh ∧
    Sorted (key_le fst) pairs ∧
    ∀ c, List.filter (λ pair, String.eqb pair.1 c) pairs =
         List.filter (λ pair, String.eqb pair.1 c) (kept_pairs (cfg := settings) auh).
Proof.
  apply (resolution_of_listed_language (cfg := settings) (ext := steady)
           "auh" fresh feed (fs fresh) auh).
  - discriminate.
  - discriminate.
  - reflexivity.
  - reflexivity.
Defined.

(** What the resolution returns for ["auh"]: ["obs"] is not a configured
    code, and the record of ["reg"] has no name. *)
Example resolution_of_auh :
  (resource_types_and_names (cfg := settings) (ext := steady) "auh" fresh).1
    = Ok [("reg", " (reg)"); ("tn", "Notes (tn)"); ("ulb", "Unlocked Literal Bible (ulb)")].
Proof. by vm_compute. Qed.

Lemma resolution_uses_last_match_witness :
  matching "auh" feed_repeated = [auh_old] ++ [auh] ∧
  resource_types_and_names (cfg := settings) (ext := repeated) "auh" fresh
    = (Ok (Py.sorted fst (kept_pairs (cfg := settings) auh)),
       record_call fresh (fetch_call (cfg := settings)) (fs fresh)).
Proof.
  split; [reflexivity|].
  apply (resolution_uses_last_match (cfg := settings) (ext := repeated)
           "auh" fresh feed_repeated (fs fresh) [auh_old] auh).
  - discriminate.
  - discriminate.
  - reflexivity.
  - reflexivity.
Defined.

(** End to end scenario A of the specification: a 500 character text is
    [parsed_ok], and the provisioned directory is gone afterwards. *)
Example scenario_parsed_ok :
  let w' := (usfm_check_triple (ext := steady) lang gen ulb fresh).2 in
  log w' = [Debug (context_of (dto "auh" "ulb" "gen") (Some "/working/temp/auh_ulb/gen.usfm")
                     "/working/temp/auh_ulb" parsed_ok)] ∧
  List.last (calls w') LangCodesAndNames = DeleteTree "/working/temp/auh_ulb" ∧
  Fs.exists_ "/" "/working/temp/auh_ulb" (fs w') = false ∧
  Fs.exists_ "/" "/working/temp" (fs w') = true.
Proof. repeat split; by vm_compute. Qed.

(** End to end scenario D: a text of exactly 300 characters is too short,
    one of 301 is fine. *)
Example scenario_boundary :
  chain_kind (Some "gen.usfm") (Some (xs 300)) = html_too_short ∧
  chain_kind (Some "gen.usfm") (Some (xs 301)) = parsed_ok.
Proof. split; by vm_compute. Qed.

End Examples.

(** ** The round trip of lines 100-101: [Path(str(p))] *)

Lemma split_has_no_sep (s : string) :
  Forall (λ x, has_sep x = false) (Py.split "/" s).
Proof.
  induction s as [|c s IH]; cbn [Py.split]; [by repeat constructor|].
  destruct (Ascii.eqb c "/") eqn:Hc; [by constructor|].
  destruct (Py.split "/" s) as [|x xs].
  - repeat constructor. cbn [has_sep]. by rewrite Hc.
  - inversion IH as [|? ? Hx Hxs]; subst. constructor; [|done].
    cbn [has_sep]. by rewrite Hc, Hx.
Qed.

Lemma Path_normal (s : string) : normal (Pathlib.Path s).
Proof.
  split.
  - cbn [Pathlib.Path Pathlib.root]. unfold Pathlib.splitroot.
    destruct (Pathlib.leading_seps s) as [|[|[|n]]]; auto.
  - cbn [Pathlib.Path Pathlib.parts].
    pose proof (split_has_no_sep s) as Hs.
    induction Hs as [|x xs Hx _ IH]; cbn [List.filter]; [constructor|].
    destruct (Pathlib.keep_part x) eqn:Hk; [|done].
    constructor; [|done]. unfold good_part. by rewrite Hk, Hx.
Qed.

Lemma split_part (x : string) : has_sep x = false → Py.split "/" x = [x].
Proof.
  induction x as [|c x IH]; cbn [has_sep Py.split]; [done|].
  intros [Hc Hx]%orb_false_iff. rewrite Hc, (IH Hx). done.
Qed.

Lemma split_part_sep (x rest : string) :
  has_sep x = false →
  Py.split "/" (x +:+ String "/" rest) = x :: Py.split "/" rest.
Proof.
  induction x as [|c x IH]; cbn [has_sep]; [done|].
  intros [Hc Hx]%orb_false_iff.
  change (String c x +:+ String "/" rest) with (String c (x +:+ String "/" rest)).
  cbn [Py.split]. by rewrite Hc, (IH Hx).
Qed.

Lemma split_join (ps : list string) :
  ps ≠ [] → Forall (λ x, good_part x = true) ps →
  Py.split "/" (Py.join "/" ps) = ps.
Proof.
  intros Hne Hgood. unfold Py.join.
  induction Hgood as [|x ps Hx Hps IH]; [done|].
  apply andb_true_iff in Hx as [_ Hx%negb_true_iff].
  destruct ps as [|y ps]; [by apply split_part|].
  change (String.concat "/" (x :: y :: ps))
    with (x +:+ String "/" (String.concat "/" (y :: ps))).
  rewrite split_part_sep by done. by rewrite IH.
Qed.

Lemma filter_good (ps : list string) :
  Forall (λ x, good_part x = true) ps → List.filter Pathlib.keep_part ps = ps.
Proof.
  induction 1 as [|x ps Hx _ IH]; [done|]. cbn [List.filter].
  apply andb_true_iff in Hx as [-> _]. by rewrite IH.
Qed.

Lemma leading_seps_other (c : ascii) (s : string) :
  Ascii.eqb c "/" = false → Pathlib.leading_seps (String c s) = 0.
Proof.
  destruct c as [[] [] [] [] [] [] [] []]; cbn; done.
Qed.

(** A joined list of good components starts with a character that is not
    the separator. *)
Lemma join_head (x : string) (ps : list string) :
  good_part x = true →
  ∃ c s, Py.join "/" (x :: ps) = String c s ∧ Ascii.eqb c "/" = false.
Proof.
  intros [Hk Hs%negb_true_iff]%andb_true_iff.
  destruct x as [|c x]; [done|].
  cbn [has_sep] in Hs. apply orb_false_iff in Hs as [Hc _].
  destruct ps as [|y ps].
  - by exists c, x.
  - exists c, (x +:+ String "/" (String.concat "/" (y :: ps))). done.
Qed.

Lemma Path_str (p : Pathlib.PurePath) : normal p → Pathlib.Path (Pathlib.str p) = p.
Proof.
  destruct p as [r ps]. intros [Hroot Hgood]. cbn [Pathlib.root Pathlib.parts] in *.
  destruct ps as [|x ps].
  - by destruct Hroot as [->|[->| ->]].
  - destruct (join_head x ps) as (c & s & Hjoin & Hc); [by inversion Hgood|].
    assert (Py.split "/" (String c s) = x :: ps) as Hsplit.
    { rewrite <- Hjoin. by apply split_join. }
    unfold Pathlib.str, Pathlib.Path. cbn [Pathlib.root Pathlib.parts].
    destruct Hroot as [->|[->| ->]]; rewrite Hjoin.
    + change ("" +:+ String c s) with (String c s).
      rewrite Hsplit, filter_good by done.
      unfold Pathlib.splitroot. by rewrite leading_seps_other.
    + change ("/" +:+ String c s) with (String "/" (String c s)).
      unfold Pathlib.splitroot.
      change (Pathlib.leading_seps (String "/" (String c s)))
        with (S (Pathlib.leading_seps (String c s))).
      rewrite leading_seps_other by done.
      change (Py.split "/" (String "/" (String c s)))
        with ("" :: Py.split "/" (String c s)).
      rewrite Hsplit.
      change (List.filter Pathlib.keep_part ("" :: x :: ps))
        with (List.filter Pathlib.keep_part (x :: ps)).
      by rewrite filter_good.
    + change ("//" +:+ String c s) with (String "/" (String "/" (String c s))).
      unfold Pathlib.splitroot.
      change (Pathlib.leading_seps (String "/" (String "/" (String c s))))
        with (S (S (Pathlib.leading_seps (String c s)))).
      rewrite leading_seps_other by done.
      change (Py.split "/" (String "/" (String "/" (String c s))))
        with ("" :: "" :: Py.split "/" (String c s)).
      rewrite Hsplit.
      change (List.filter Pathlib.keep_part ("" :: "" :: x :: ps))
        with (List.filter Pathlib.keep_part (x :: ps)).
      by rewrite filter_good.
Qed.

Lemma Forall_removelast {A} (P : A → Prop) (l : list A) :
  Forall P l → Forall P (List.removelast l).
Proof.
  induction 1 as [|x l Hx Hl IH]; [constructor|].
  cbn [List.removelast]. destruct l; [constructor|]. by constructor.
Qed.

Lemma parent_normal (p : Pathlib.PurePath) : normal p → normal (Pathlib.parent p).
Proof.
  intros [Hroot Hgood]. split; [done|]. by apply Forall_removelast.
Qed.

Lemma absolute_normal (cwd : string) (p : Pathlib.PurePath) :
  normal p → normal (Pathlib.absolute cwd p).
Proof.
  intros Hp. unfold Pathlib.absolute. destruct (Pathlib.is_absolute p); [done|].
  destruct (Path_normal cwd) as [Hroot Hgood], Hp as [_ Hparts].
  split; [done|]. cbn [Pathlib.parts]. by apply Forall_app.
Qed.

(** X1: converting the absolute parent to a string and parsing that string
    again (lines 100-101) gives back the same path, so the name line 101
    compares with the preserved name is the name of the parent itself. *)
Theorem parent_dir_round_trip (cwd resource_dir : string) :
  Pathlib.Path (parent_dir_of cwd resource_dir) =
    Pathlib.absolute cwd (Pathlib.parent (Pathlib.Path resource_dir)) ∧
  Pathlib.name (Pathlib.Path (parent_dir_of cwd resource_dir)) =
    Pathlib.name (Pathlib.absolute cwd (Pathlib.parent (Pathlib.Path resource_dir))).
Proof.
  assert (Pathlib.Path (parent_dir_of cwd resource_dir) =
    Pathlib.absolute cwd (Pathlib.parent (Pathlib.Path resource_dir))) as Heq.
  { apply Path_str, absolute_normal, parent_normal, Path_normal. }
  by rewrite Heq.
Qed.
(** ** What [delete_asset] removes *)

Lemma fold_walk (ps acc : list string) :
  no_dotdot ps → fold_left Fs.walk ps acc = acc ++ ps.
Proof.
  intros Hps. revert acc.
  induction Hps as [|x ps Hx _ IH]; intros acc; cbn [fold_left].
  - by rewrite app_nil_r.
  - rewrite IH. unfold Fs.walk.
    destruct (String.eqb_spec x ".."); [done|]. by rewrite <- app_assoc.
Qed.

Lemma no_dotdot_app (ps qs : list string) :
  no_dotdot (ps ++ qs) ↔ no_dotdot ps ∧ no_dotdot qs.
Proof. apply Forall_app. Qed.

(** A path without [".."] names the node of its components. *)
Lemma resolve_components (cwd dir : string) :
  no_dotdot (components cwd dir) → Fs.resolve cwd dir = components cwd dir.
Proof.
  unfold components, Fs.resolve, Pathlib.absolute. cbn zeta.
  destruct (Pathlib.is_absolute (Pathlib.Path dir)); cbn [Pathlib.parts].
  - intros Hps. by rewrite fold_walk.
  - intros [Hcwd Hps]%no_dotdot_app. by rewrite (fold_walk _ []), fold_walk.
Qed.

Lemma parent_components (cwd dir : string) :
  Pathlib.parts (Pathlib.Path dir) ≠ [] →
  Pathlib.parts (Pathlib.absolute cwd (Pathlib.parent (Pathlib.Path dir))) =
    List.removelast (components cwd dir).
Proof.
  intros Hne. unfold components, Pathlib.absolute.
  change (Pathlib.is_absolute (Pathlib.parent (Pathlib.Path dir)))
    with (Pathlib.is_absolute (Pathlib.Path dir)).
  destruct (Pathlib.is_absolute (Pathlib.Path dir)); cbn [Pathlib.parts Pathlib.parent];
    [done|].
  by rewrite List.removelast_app.
Qed.

(** The name line 101 tests, by the components of the resource directory. *)
Lemma parent_name (cwd dir : string) :
  Pathlib.parts (Pathlib.Path dir) ≠ [] →
  Pathlib.name (Pathlib.Path (parent_dir_of cwd dir)) =
    List.last (List.removelast (components cwd dir)) "".
Proof.
  intros Hne. unfold parent_dir_of.
  rewrite Path_str by apply absolute_normal, parent_normal, Path_normal.
  unfold Pathlib.name. by rewrite parent_components.
Qed.

Lemma last_app_nonempty {A} (l1 l2 : list A) (d : A) :
  l2 ≠ [] → List.last (l1 ++ l2) d = List.last l2 d.
Proof.
  intros Hne. induction l1 as [|x l1 IH]; [done|].
  cbn [app List.last]. rewrite IH. by destruct (l1 ++ l2) eqn:Happ;
    [apply app_eq_nil in Happ as [_ ?]|].
Qed.

Lemma own_name (cwd dir : string) :
  Pathlib.parts (Pathlib.Path dir) ≠ [] →
  Pathlib.name (Pathlib.Path dir) = List.last (components cwd dir) "".
Proof.
  intros Hne. unfold components, Pathlib.absolute, Pathlib.name.
  destruct (Pathlib.is_absolute (Pathlib.Path dir)); cbn [Pathlib.parts]; [done|].
  by rewrite last_app_nonempty.
Qed.

(** The node the parent directory string names. *)
Lemma resolve_parent (cwd dir : string) :
  Pathlib.is_absolute (Pathlib.Path cwd) = true →
  Pathlib.parts (Pathlib.Path dir) ≠ [] →
  no_dotdot (List.removelast (components cwd dir)) →
  Fs.resolve cwd (parent_dir_of cwd dir) = List.removelast (components cwd dir).
Proof.
  intros Hcwd Hne Hps. unfold Fs.resolve, parent_dir_of. cbn zeta.
  rewrite Path_str by apply absolute_normal, parent_normal, Path_normal.
  rewrite parent_components by done.
  assert (Pathlib.is_absolute
            (Pathlib.absolute cwd (Pathlib.parent (Pathlib.Path dir))) = true) as ->.
  { unfold Pathlib.absolute.
    destruct (Pathlib.is_absolute (Pathlib.parent (Pathlib.Path dir))) eqn:Hp; done. }
  by rewrite fold_walk.
Qed.

Lemma removelast_two {A} (qs : list A) (m n : A) :
  List.removelast (qs ++ [m; n]) = qs ++ [m].
Proof.
  change [m; n] with ([m] ++ [n]). rewrite app_assoc.
  by rewrite List.removelast_app, app_nil_r.
Qed.

Lemma last_two {A} (qs : list A) (m n d : A) : List.last (qs ++ [m; n]) d = n.
Proof.
  change [m; n] with ([m] ++ [n]). rewrite app_assoc. apply List.last_last.
Qed.

(** A resource directory with at least one component of its own has a
    non-empty absolute path. *)
Lemma components_nonempty (cwd dir : string) :
  Pathlib.parts (Pathlib.Path dir) ≠ [] → components cwd dir ≠ [].
Proof.
  intros Hne. unfold components, Pathlib.absolute.
  destruct (Pathlib.is_absolute (Pathlib.Path dir)); cbn [Pathlib.parts]; [done|].
  by intros [_ ?]%app_eq_nil.
Qed.

(** A directory is not at or below its own child. *)
Lemma not_prefix_of_parent (ps : list string) :
  ps ≠ [] → ¬ ps `prefix_of` List.removelast ps.
Proof.
  intros Hne. rewrite (List.app_removelast_last "" Hne) at 1.
  intros [rest Hrest]. apply (f_equal length) in Hrest.
  rewrite !length_app in Hrest. cbn in Hrest. lia.
Qed.

(** C5 (as amended): for a resource directory whose path has a component of
    its own and no [".."], in a process with an absolute working directory,
    [delete_asset] never raises, writes nothing to the log and hands at most
    one directory to the tree deletion primitive: the parent, or else the
    resource directory itself.  Exactly the nodes at or below that directory
    disappear, and the directory handed over is never one named the
    preserved name; a parent that bears the preserved name is never
    removed. *)
Theorem delete_asset_target_not_preserved (resource_dir keep : string) (w : World) :
  Pathlib.is_absolute (Pathlib.Path (cwd w)) = true →
  Pathlib.parts (Pathlib.Path resource_dir) ≠ [] →
  no_dotdot (components (cwd w) resource_dir) →
  ∃ w', delete_asset resource_dir keep w = (Ok (), w') ∧
        log w' = log w ∧
        ((calls w' = calls w ∧ fs w' = fs w) ∨
         ∃ target root,
           calls w' = calls w ++ [DeleteTree target] ∧
           (target = parent_dir_of (cwd w) resource_dir ∧
            root = List.removelast (components (cwd w) resource_dir) ∨
            target = resource_dir ∧ root = components (cwd w) resource_dir) ∧
           Fs.resolve (cwd w) target = root ∧
           List.last root "" ≠ keep ∧
           Pathlib.name (Pathlib.Path target) ≠ keep ∧
           (∀ node, node ∈ fs w' ↔ node ∈ fs w ∧ ¬ root `prefix_of` node)) ∧
        (List.last (List.removelast (components (cwd w) resource_dir)) "" = keep →
         List.removelast (components (cwd w) resource_dir) ∈ fs w →
         List.removelast (components (cwd w) resource_dir) ∈ fs w').
Proof.
  intros Hcwd Hne Hdots.
  pose proof (parent_name (cwd w) resource_dir Hne) as Hpname.
  pose proof (own_name (cwd w) resource_dir Hne) as Hname.
  pose proof (resolve_components (cwd w) resource_dir Hdots) as Hown.
  pose proof (resolve_parent (cwd w) resource_dir Hcwd Hne
                (Forall_removelast _ _ Hdots)) as Hparent.
  pose proof (components_nonempty (cwd w) resource_dir Hne) as Hcomps.
  rewrite delete_asset_run.
  destruct (String.eqb_spec keep
    (Pathlib.name (Pathlib.Path (parent_dir_of (cwd w) resource_dir)))) as [Hp|Hp];
    cbn [negb].
  - destruct (String.eqb_spec keep (Pathlib.name (Pathlib.Path resource_dir)))
      as [Hr|Hr]; cbn [negb].
    + exists w. split; [done|]. split; [done|]. split; [by left|done].
    + eexists. split; [reflexivity|]. cbn [cwd fs log calls record_call].
      split; [done|]. split.
      * right. exists resource_dir, (components (cwd w) resource_dir).
        split; [done|]. split; [by right|]. split; [done|].
        split; [congruence|]. split; [congruence|].
        intros node. unfold Fs.delete_tree. rewrite elem_of_filter, Hown. tauto.
      * intros _ Hin. unfold Fs.delete_tree. apply elem_of_filter.
        split; [|done]. rewrite Hown. by apply not_prefix_of_parent.
  - eexists. split; [reflexivity|]. cbn [cwd fs log calls record_call].
    split; [done|]. split.
    + right. exists (parent_dir_of (cwd w) resource_dir),
        (List.removelast (components (cwd w) resource_dir)).
      split; [done|]. split; [by left|]. split; [done|].
      split; [congruence|]. split; [congruence|].
      intros node. unfold Fs.delete_tree. rewrite elem_of_filter, Hparent. tauto.
    + intros Hk. congruence.
Qed.

(** The run of [delete_asset] below a parent that bears the preserved
    name. *)
Lemma delete_asset_keeps_parent (dir keep : string) (w : World)
    (qs : list string) (n : string) :
  Pathlib.parts (Pathlib.Path dir) ≠ [] →
  components (cwd w) dir = qs ++ [keep; n] →
  n ≠ keep →
  no_dotdot (qs ++ [keep; n]) →
  delete_asset dir keep w = delete_tree dir w ∧
  ∀ node, node ∈ Fs.delete_tree (cwd w) dir (fs w) ↔
          node ∈ fs w ∧ ¬ (qs ++ [keep; n]) `prefix_of` node.
Proof.
  intros Hne Hcomp Hn Hdots. split.
  - rewrite delete_asset_run.
    rewrite parent_name, own_name with (cwd := cwd w), Hcomp by done.
    rewrite removelast_two, List.last_last, last_two.
    rewrite String.eqb_refl. cbn [negb].
    by destruct (String.eqb_spec keep n) as [Heq|_]; [congruence|].
  - intros node. unfold Fs.delete_tree. rewrite elem_of_filter.
    rewrite resolve_components, Hcomp by (by rewrite Hcomp). tauto.
Qed.

Lemma not_prefix_longer {A} (l : list A) (x : A) : ¬ (l ++ [x]) `prefix_of` l.
Proof.
  intros [rest Hrest]. apply (f_equal length) in Hrest.
  rewrite !length_app in Hrest. cbn in Hrest. lia.
Qed.

(** X2: the layout the sweep relies on.  When the parent of the resource
    directory bears the preserved name and the directory itself does not,
    [delete_asset] hands the resource directory to the tree deletion
    primitive and exactly the nodes at or below it disappear; the preserved
    directory and everything else in it stay. *)
Theorem delete_asset_under_preserved (dir keep : string) (w : World)
    (qs : list string) (n : string) :
  Pathlib.parts (Pathlib.Path dir) ≠ [] →
  components (cwd w) dir = qs ++ [keep; n] →
  n ≠ keep →
  no_dotdot (qs ++ [keep; n]) →
  ∃ w', delete_asset dir keep w = (Ok (), w') ∧
        calls w' = calls w ++ [DeleteTree dir] ∧
        (∀ node, node ∈ fs w' ↔ node ∈ fs w ∧ ¬ (qs ++ [keep; n]) `prefix_of` node) ∧
        (qs ++ [keep] ∈ fs w → qs ++ [keep] ∈ fs w').
Proof.
  intros Hne Hcomp Hn Hdots.
  destruct (delete_asset_keeps_parent dir keep w qs n) as [-> Hfs]; [done..|].
  eexists. split; [reflexivity|]. cbn [calls fs record_call]. split; [done|].
  split; [done|].
  intros Hin. apply Hfs. split; [done|].
  change [keep; n] with ([keep] ++ [n]). rewrite app_assoc.
  apply not_prefix_longer.
Qed.

(** X3: when the parent of the resource directory does not bear the
    preserved name, [delete_asset] hands the parent to the tree deletion
    primitive: the resource directory goes, and with it every sibling below
    the same parent. *)
Theorem delete_asset_removes_parent (dir keep : string) (w : World)
    (qs : list string) (m n : string) :
  Pathlib.is_absolute (Pathlib.Path (cwd w)) = true →
  Pathlib.parts (Pathlib.Path dir) ≠ [] →
  components (cwd w) dir = qs ++ [m; n] →
  m ≠ keep →
  no_dotdot (qs ++ [m]) →
  ∃ w', delete_asset dir keep w = (Ok (), w') ∧
        calls w' = calls w ++ [DeleteTree (parent_dir_of (cwd w) dir)] ∧
        (∀ node, node ∈ fs w' ↔ node ∈ fs w ∧ ¬ (qs ++ [m]) `prefix_of` node) ∧
        (∀ sibling, qs ++ [m; sibling] ∉ fs w').
Proof.
  intros Hcwd Hne Hcomp Hm Hdots. rewrite delete_asset_run.
  rewrite parent_name, Hcomp, removelast_two, List.last_last by done.
  destruct (String.eqb_spec keep m) as [Heq|_]; [congruence|]. cbn [negb].
  eexists. split; [reflexivity|]. cbn [calls fs record_call]. split; [done|].
  assert (∀ node, node ∈ Fs.delete_tree (cwd w) (parent_dir_of (cwd w) dir) (fs w) ↔
                  node ∈ fs w ∧ ¬ (qs ++ [m]) `prefix_of` node) as Hfs.
  { intros node. unfold Fs.delete_tree. rewrite elem_of_filter.
    rewrite resolve_parent, Hcomp, removelast_two
      by (done || by rewrite Hcomp, removelast_two). tauto. }
  split; [done|].
  intros sibling [_ Hnot]%Hfs. apply Hnot. exists [sibling].
  change [m; sibling] with ([m] ++ [sibling]). by rewrite app_assoc.
Qed.

(** X4: a resource directory directly below the root.  Its parent is the
    root, whose name is empty, so unless the preserved name is empty too the
    root itself is handed to the tree deletion primitive and nothing of the
    file system is left. *)
Theorem delete_asset_at_root (dir keep : string) (w : World) (n : string) :
  Pathlib.parts (Pathlib.Path dir) ≠ [] →
  components (cwd w) dir = [n] →
  keep ≠ "" →
  ∃ w', delete_asset dir keep w = (Ok (), w') ∧
        calls w' = calls w ++ [DeleteTree (parent_dir_of (cwd w) dir)] ∧
        fs w' = ∅.
Proof.
  intros Hne Hcomp Hkeep. rewrite delete_asset_run.
  rewrite parent_name, Hcomp by done. cbn [List.removelast List.last].
  destruct (String.eqb_spec keep "") as [Heq|_]; [congruence|]. cbn [negb].
  eexists. split; [reflexivity|]. cbn [calls fs record_call]. split; [done|].
  apply set_eq. intros node. unfold Fs.delete_tree. rewrite elem_of_filter.
  assert (Fs.resolve (cwd w) (parent_dir_of (cwd w) dir) = []) as ->.
  { unfold Fs.resolve, parent_dir_of. cbn zeta.
    rewrite Path_str by apply absolute_normal, parent_normal, Path_normal.
    rewrite parent_components, Hcomp by done. cbn [List.removelast fold_left].
    unfold Pathlib.absolute.
    change (Pathlib.is_absolute (Pathlib.parent (Pathlib.Path dir)))
      with (Pathlib.is_absolute (Pathlib.Path dir)).
    unfold components, Pathlib.absolute in Hcomp.
    destruct (Pathlib.is_absolute (Pathlib.Path dir)) eqn:Habs.
    - change (Pathlib.is_absolute (Pathlib.parent (Pathlib.Path dir)))
        with (Pathlib.is_absolute (Pathlib.Path dir)).
      by rewrite Habs.
    - cbn [Pathlib.parts] in Hcomp.
      destruct (Pathlib.parts (Pathlib.Path (cwd w))) as [|c cs] eqn:Hc.
      + by destruct (Pathlib.is_absolute
          {| Pathlib.root := Pathlib.root (Pathlib.Path (cwd w));
             Pathlib.parts := [] ++ Pathlib.parts (Pathlib.parent (Pathlib.Path dir)) |}).
      + exfalso. destruct (Pathlib.parts (Pathlib.Path dir)) as [|d ds]; [done|].
        apply (f_equal length) in Hcomp. rewrite length_app in Hcomp.
        cbn in Hcomp. lia. }
  split; [|by intros ?%not_elem_of_empty].
  intros [Hnot _]. exfalso. apply Hnot. apply prefix_nil.
Qed.
(** ** Traces: what a run adds to the calls and to the log *)

Lemma events_app (l1 l2 : list LogRecord) : events (l1 ++ l2) = events l1 + events l2.
Proof. unfold events. by rewrite List.filter_app, length_app. Qed.

Lemma provisions_app (l1 l2 : list Call) :
  provisions (l1 ++ l2) = provisions l1 + provisions l2.
Proof. unfold provisions. by rewrite List.filter_app, length_app. Qed.

Lemma lookups_app (l1 l2 : list Call) : lookups (l1 ++ l2) = lookups l1 ++ lookups l2.
Proof. apply List.filter_app. Qed.

Lemma follows_locator_no_lookup (cs : list Call) :
  Forall (λ c, follows_locator c = true) cs → lookups cs = [].
Proof.
  induction 1 as [|c cs Hc _ IH]; [done|].
  unfold lookups in *. cbn [List.filter]. rewrite IH. by destruct c.
Qed.

Section Grows.
Context (P : Call → Prop).

Lemma grows_refl (exact : bool) (w : World) : grows P exact w w.
Proof.
  exists [], []. rewrite !app_nil_r. repeat split; [constructor|].
  by destruct exact.
Qed.

Lemma grows_weaken (exact : bool) (w w' : World) :
  grows P true w w' → grows P exact w w'.
Proof.
  intros (new & logs & ? & ? & ? & ? & Heq). exists new, logs.
  repeat split; [done..|]. destruct exact; [done|lia].
Qed.

Lemma grows_trans (e1 e2 : bool) (a b c : World) :
  grows P e1 a b → grows P e2 b c → grows P (e1 && e2) a c.
Proof.
  intros (n1 & l1 & Hc1 & Hl1 & Hw1 & HP1 & He1) (n2 & l2 & Hc2 & Hl2 & Hw2 & HP2 & He2).
  exists (n1 ++ n2), (l1 ++ l2).
  rewrite Hc2, Hc1, Hl2, Hl1, Hw2, Hw1, !app_assoc.
  repeat split; [by apply Forall_app|].
  rewrite events_app, provisions_app. destruct e1, e2; cbn [andb]; lia.
Qed.

Lemma steps_ret {A} (a : A) : steps P (ret a).
Proof. intros w. split; [|intros _ _]; apply grows_refl. Qed.

Lemma steps_bind {A B} (m : M A) (k : A → M B) :
  steps P m → (∀ a, steps P (k a)) → steps P (bind m k).
Proof.
  intros Hm Hk w. unfold bind. destruct (Hm w) as [Hany Hok].
  destruct (m w) as [[a|e] w1]; cbn [fst snd] in *; [|split; [done|by intros]].
  specialize (Hok a eq_refl). destruct (Hk a w1) as [Hany' Hok'].
  split.
  - apply (grows_trans true false _ w1); done.
  - intros b Hb. apply (grows_trans true true _ w1); [done|by eapply Hok'].
Qed.

Lemma steps_for_each {A} (body : A → M unit) (xs : list A) :
  (∀ x, x ∈ xs → steps P (body x)) → steps P (for_each xs body).
Proof.
  induction xs as [|x xs IH]; intros Hbody; cbn [for_each]; [apply steps_ret|].
  apply steps_bind; [apply Hbody; left|].
  intros _. apply IH. intros y Hy. apply Hbody. by right.
Qed.

(** A call to a collaborator that is neither the provisioner nor logs. *)
Lemma steps_call {A} (c : Call) (f : External A) :
  P c → is_provision c = false → steps P (call c f).
Proof.
  intros Hc Hprov w. rewrite call_run. cbn [fst snd].
  assert (grows P true w (record_call w c (f (fs w)).2)) as Hg.
  { exists [c], []. rewrite app_nil_r. repeat split; [by repeat constructor|].
    unfold events, provisions. cbn [List.filter]. by rewrite Hprov. }
  split; [by apply grows_weaken|by intros].
Qed.

End Grows.

Lemma grows_impl (P Q : Call → Prop) (exact : bool) (w w' : World) :
  (∀ c, P c → Q c) → grows P exact w w' → grows Q exact w w'.
Proof.
  intros HPQ (new & logs & ? & ? & ? & HP & ?). exists new, logs.
  repeat split; [done..| |done]. by eapply Forall_impl.
Qed.

Lemma steps_impl {A} (P Q : Call → Prop) (m : M A) :
  (∀ c, P c → Q c) → steps P m → steps Q m.
Proof.
  intros HPQ Hm w. destruct (Hm w) as [Hany Hok].
  split; [by eapply grows_impl|]. intros a Ha. eapply grows_impl; [done|by eapply Hok].
Qed.

(** What [delete_asset] adds to the trace. *)
Lemma delete_asset_calls (dir keep : string) (w : World) :
  ∃ w' dels, delete_asset dir keep w = (Ok (), w') ∧
    calls w' = calls w ++ dels ∧ log w' = log w ∧ cwd w' = cwd w ∧
    Forall (λ c, follows_locator c = true) dels ∧ provisions dels = 0.
Proof.
  rewrite delete_asset_run. repeat case_match.
  - eexists _, [DeleteTree _]. split; [reflexivity|]. by repeat constructor.
  - eexists _, [DeleteTree _]. split; [reflexivity|]. by repeat constructor.
  - exists w, []. rewrite app_nil_r. by repeat constructor.
Qed.

(** What the chain of conditions adds to the trace and to the log. *)
Lemma classify_trace (dto : ResourceLookupDto) (file html : option string)
    (dir : string) (w : World) :
  ∃ w' dels, classify_and_retain dto file html dir w = (Ok (), w') ∧
    calls w' = calls w ++ dels ∧
    log w' = log w ++ [Debug (context_of dto file dir (chain_kind file html))] ∧
    cwd w' = cwd w ∧
    Forall (λ c, follows_locator c = true) dels ∧ provisions dels = 0.
Proof.
  unfold chain_kind.
  destruct (Py.truthy file) eqn:Hf; cbn [negb].
  2: { eexists _, []. rewrite classify_no_file by done. cbn.
       rewrite app_nil_r. by repeat constructor. }
  destruct (Py.truthy html) eqn:Hh; cbn [negb].
  2: { eexists _, []. rewrite classify_no_html by done. cbn.
       rewrite app_nil_r. by repeat constructor. }
  destruct (short_html html) eqn:Hs.
  { eexists _, []. rewrite classify_short by done. cbn.
    rewrite app_nil_r. by repeat constructor. }
  rewrite classify_fine by done. unfold bind, log_event, emit.
  destruct (delete_asset_calls dir "temp"
    (record_log w (Debug (context_of dto file dir parsed_ok))))
    as (w' & dels & -> & Hcalls & Hlog & Hcwd & Htail & Hprov).
  by exists w', dels.
Qed.

Section TripleTrace.
Context `{cfg : Settings} `{ext : Collaborators}.
Variables (lang : string * string * bool) (book rtype : string * string).

(** The rest of the body once a directory was provisioned. *)
Lemma extract_classify_trace (dto : ResourceLookupDto) (dir : string) (w : World) :
  ∃ w' rest logs,
    (extracted <- extract dto dir ;;
     classify_and_retain dto extracted.1 extracted.2 dir) w = (Ok (), w') ∧
    calls w' = calls w ++ rest ∧ log w' = log w ++ logs ∧ cwd w' = cwd w ∧
    Forall (λ c, follows_locator c = true) rest ∧ provisions rest = 0 ∧
    ((∃ ctx, logs = [Debug ctx]) ∨
     (∃ e ctx, logs = [ExceptionTrace failure_message e; Debug ctx])).
Proof.
  unfold bind. rewrite extract_run.
  destruct (usfm_asset_file dto dir (fs w)) as [[file|e] fs1].
  - destruct (usfm_asset_html file dto fs1) as [[html|e] fs2]; cbn [fst snd].
    + match goal with |- context [classify_and_retain _ _ _ _ ?w0] =>
        destruct (classify_trace dto file html dir w0)
          as (w' & dels & -> & Hcalls & Hlog & Hcwd & Htail & Hprov)
      end.
      exists w', (UsfmAssetFile dto dir :: UsfmAssetHtml file dto :: dels),
        [Debug (context_of dto file dir (chain_kind file html))].
      cbn [calls log cwd record_call record_log] in *.
      rewrite Hcalls, Hlog, <- !app_assoc. repeat split; [done| |done|by eauto].
      by repeat constructor.
    + match goal with |- context [classify_and_retain _ _ _ _ ?w0] =>
        destruct (classify_trace dto file None dir w0)
          as (w' & dels & -> & Hcalls & Hlog & Hcwd & Htail & Hprov)
      end.
      exists w', (UsfmAssetFile dto dir :: UsfmAssetHtml file dto :: dels),
        [ExceptionTrace failure_message e;
         Debug (context_of dto file dir (chain_kind file None))].
      cbn [calls log cwd record_call record_log] in *.
      rewrite Hcalls, Hlog, <- !app_assoc. repeat split; [done| |done|by eauto].
      by repeat constructor.
  - cbn [fst snd].
    match goal with |- context [classify_and_retain _ _ _ _ ?w0] =>
      destruct (classify_trace dto None None dir w0)
        as (w' & dels & -> & Hcalls & Hlog & Hcwd & Htail & Hprov)
    end.
    exists w', (UsfmAssetFile dto dir :: dels),
      [ExceptionTrace failure_message e;
       Debug (context_of dto None dir (chain_kind None None))].
    cbn [calls log cwd record_call record_log] in *.
    rewrite Hcalls, Hlog, <- !app_assoc. repeat split; [done| |done|by eauto].
    by repeat constructor.
Qed.

(** What the body of the inner loop adds to the trace and to the log. *)
Lemma usfm_check_triple_trace (w : World) :
  ∃ rest logs,
    calls (usfm_check_triple lang book rtype w).2 =
      calls w ++ locator_call lang book rtype :: rest ∧
    log (usfm_check_triple lang book rtype w).2 = log w ++ logs ∧
    cwd (usfm_check_triple lang book rtype w).2 = cwd w ∧
    Forall (λ c, follows_locator c = true) rest ∧
    (logs = [] ∨ (∃ ctx, logs = [Debug ctx]) ∨
     (∃ e ctx, logs = [ExceptionTrace failure_message e; Debug ctx])) ∧
    events logs ≤ provisions rest ∧ provisions rest ≤ 1 ∧
    ((usfm_check_triple lang book rtype w).1 = Ok () → events logs = provisions rest).
Proof.
  rewrite usfm_check_triple_run.
  destruct (usfm_resource_lookup lang.1.1 rtype.1 book.1 (fs w)) as [[dto|e] fs1].
  2: { exists [], []. cbn. rewrite app_nil_r. repeat split; auto. }
  cbn zeta. destruct (Fs.exists_ (cwd w) (canonical_directory dto) fs1).
  { exists [], []. cbn. rewrite app_nil_r. repeat split; auto. }
  destruct (provision_asset_files dto fs1) as [[dir|e] fs2].
  2: { exists [ProvisionAssetFiles dto], []. cbn. rewrite app_nil_r, <- app_assoc.
       repeat split; auto. by repeat constructor. }
  match goal with |- context [bind _ _ ?w0] =>
    destruct (extract_classify_trace dto dir w0)
      as (w' & rest & logs & -> & Hcalls & Hlog & Hcwd & Htail & Hprov & Hshape)
  end.
  exists (ProvisionAssetFiles dto :: rest), logs. cbn [fst snd].
  cbn [calls log cwd record_call] in *. rewrite Hcalls, Hlog, <- !app_assoc.
  assert (events logs = 1) as Hev.
  { by destruct Hshape as [[ctx ->]|(e & ctx & ->)]. }
  assert (provisions (ProvisionAssetFiles dto :: rest) = 1) as Hp.
  { change (ProvisionAssetFiles dto :: rest) with ([ProvisionAssetFiles dto] ++ rest).
    by rewrite provisions_app, Hprov. }
  repeat split; [done|by constructor|tauto|lia..].
Qed.

(** X5: what one triple adds.  The body of the loop calls the Asset Locator
    first, for exactly its own language, resource type and book, and after it
    only the provisioner, the extractor and the tree deletion primitive, the
    provisioner at most once.  To the log it adds nothing, or one event
    record, or one exception trace followed by one event record; what was in
    the trace and in the log before stays.  When the body returns, it has
    logged exactly one event record per call to the provisioner. *)
Theorem triple_trace (w : World) :
  ∃ rest logs,
    calls (usfm_check_triple lang book rtype w).2 =
      calls w ++ locator_call lang book rtype :: rest ∧
    log (usfm_check_triple lang book rtype w).2 = log w ++ logs ∧
    cwd (usfm_check_triple lang book rtype w).2 = cwd w ∧
    Forall (λ c, follows_locator c = true) rest ∧
    (logs = [] ∨ (∃ ctx, logs = [Debug ctx]) ∨
     (∃ e ctx, logs = [ExceptionTrace failure_message e; Debug ctx])) ∧
    events logs ≤ provisions rest ∧ provisions rest ≤ 1 ∧
    ((usfm_check_triple lang book rtype w).1 = Ok () → events logs = provisions rest).
Proof. apply usfm_check_triple_trace. Qed.

Lemma triple_steps (P : Call → Prop) :
  P (locator_call lang book rtype) →
  (∀ c, follows_locator c = true → P c) →
  steps P (usfm_check_triple lang book rtype).
Proof.
  intros Hloc Htail w.
  destruct (usfm_check_triple_trace w)
    as (rest & logs & Hcalls & Hlog & Hcwd & Hrest & _ & Hle & _ & Heq).
  assert (Forall P (locator_call lang book rtype :: rest)) as HP.
  { constructor; [done|]. by eapply Forall_impl. }
  assert (provisions (locator_call lang book rtype :: rest) = provisions rest) as Hp.
  { done. }
  split.
  - exists (locator_call lang book rtype :: rest), logs. rewrite Hp. by repeat split.
  - intros [] Hok. exists (locator_call lang book rtype :: rest), logs.
    rewrite Hp. repeat split; [done..|]. by apply Heq.
Qed.

Lemma triple_tracks :
  tracks (usfm_check_triple lang book rtype) [locator_call lang book rtype].
Proof.
  intros w. exists [locator_call lang book rtype].
  destruct (usfm_check_triple_trace w) as (rest & logs & Hcalls & _ & _ & Hrest & _).
  rewrite Hcalls, lookups_app. split; [|done].
  f_equal. unfold lookups at 1. cbn [List.filter locator_call is_lookup].
  f_equal. by apply follows_locator_no_lookup.
Qed.

End TripleTrace.

(** ** Traces of the sweep of a language and of [main] *)

Lemma steps_raise {A} (P : Call → Prop) (e : Exn) : steps P (raise (A := A) e).
Proof. intros w. split; [apply grows_refl|by intros]. Qed.

Lemma tracks_ret {A} (a : A) : tracks (ret a) [].
Proof. intros w. exists []. by rewrite app_nil_r. Qed.

Lemma tracks_bind {A B} (m : M A) (k : A → M B) (p1 p2 : list Call) :
  tracks m p1 → (∀ a, tracks (k a) p2) → tracks (bind m k) (p1 ++ p2).
Proof.
  intros Hm Hk w. unfold bind. destruct (Hm w) as (made1 & Hl1 & Hpre1 & Hok1).
  destruct (m w) as [[a|e] w1]; cbn [fst snd] in *.
  - destruct (Hk a w1) as (made2 & Hl2 & Hpre2 & Hok2).
    exists (p1 ++ made2). rewrite Hl2, Hl1, (Hok1 a eq_refl), <- app_assoc.
    split; [done|]. split; [by apply prefix_app|].
    intros b Hb. by rewrite (Hok2 b Hb).
  - exists made1. split; [done|]. split; [|by intros].
    by apply prefix_app_r.
Qed.

Lemma tracks_for_each {A} (body : A → M unit) (plan : A → list Call) (xs : list A) :
  (∀ x, tracks (body x) (plan x)) → tracks (for_each xs body) (flat_map plan xs).
Proof.
  intros Hbody. induction xs as [|x xs IH]; cbn [for_each flat_map].
  - apply tracks_ret.
  - apply tracks_bind; [apply Hbody|by intros].
Qed.

Lemma flat_map_singleton {A B} (f : A → B) (xs : list A) :
  flat_map (λ x, [f x]) xs = map f xs.
Proof. induction xs as [|x xs IH]; [done|]. cbn. by rewrite IH. Qed.

Section LanguageTrace.
Context `{cfg : Settings} `{ext : Collaborators}.

Lemma resolution_steps (P : Call → Prop) (code : string) :
  (code ≠ "en" → code ≠ "id" → P fetch_call) →
  steps P (resource_types_and_names code).
Proof.
  intros Hfetch. unfold resource_types_and_names.
  destruct (String.eqb_spec code "en"); [apply steps_ret|].
  destruct (String.eqb_spec code "id"); [apply steps_ret|].
  apply steps_bind; [by apply steps_call; [apply Hfetch|]|].
  intros data. destruct (assign_values code data); [apply steps_ret|apply steps_raise].
Qed.

Lemma usfm_only_elem (types : list (string * string)) (pair : string * string) :
  pair ∈ usfm_only types → pair.1 ∈ USFM_RESOURCE_TYPES.
Proof.
  unfold usfm_only. rewrite list_elem_of_In, List.filter_In, str_in_elem_of.
  intros [_ Hin]. by apply bool_decide_eq_true in Hin.
Qed.

Lemma language_steps (P : Call → Prop) (lang : string * string * bool) :
  (lang.1.1 ≠ "en" → lang.1.1 ≠ "id" → P fetch_call) →
  P (BookCodesForLang lang.1.1) →
  (∀ r b, r ∈ USFM_RESOURCE_TYPES → P (UsfmResourceLookup lang.1.1 r b)) →
  (∀ c, follows_locator c = true → P c) →
  steps P (usfm_check_for_lang lang).
Proof.
  intros Hfetch Hbooks Hlookup Htail. unfold usfm_check_for_lang.
  apply steps_bind; [by apply resolution_steps|]. intros types.
  apply steps_bind; [by apply steps_call|]. intros books.
  apply steps_for_each. intros book _.
  apply steps_for_each. intros rtype Hin.
  apply triple_steps; [|done].
  apply Hlookup. by apply (usfm_only_elem types).
Qed.

(** X6: the sweep of one language only adds to the trace and to the log.
    It calls the Asset Locator for that language and for configured USFM
    resource types only, asks for the book codes of that language only,
    never asks for the language catalogue, and fetches the metadata feed
    (from the configured place) only when the language is neither ["en"]
    nor ["id"]. *)
Theorem language_sweep_calls (lang : string * string * bool) (w : World) :
  ∃ new logs,
    calls (usfm_check_for_lang lang w).2 = calls w ++ new ∧
    log (usfm_check_for_lang lang w).2 = log w ++ logs ∧
    Forall (language_call lang.1.1) new.
Proof.
  destruct (language_steps (language_call lang.1.1) lang) with (w := w)
    as [(new & logs & Hcalls & Hlog & _ & HP & _) _].
  - by intros.
  - done.
  - by intros.
  - by intros [].
  - by exists new, logs.
Qed.

(** The sweep of a language, once the resolution and the book codes
    answered. *)
Lemma usfm_check_for_lang_run (lang : string * string * bool) (w w1 : World)
    (types books : list (string * string)) (fs2 : Fs.FS) :
  resource_types_and_names lang.1.1 w = (Ok types, w1) →
  book_codes_for_lang lang.1.1 (fs w1) = (Ok books, fs2) →
  usfm_check_for_lang lang w =
    for_each books
      (λ book, for_each (usfm_only types) (λ rtype, usfm_check_triple lang book rtype))
      (record_call w1 (BookCodesForLang lang.1.1) fs2).
Proof.
  intros Hres Hbooks. unfold usfm_check_for_lang. unfold bind at 1. rewrite Hres.
  unfold bind at 1. by rewrite call_run, Hbooks.
Qed.

Lemma resolution_no_lookup (code : string) (w : World) :
  lookups (calls (resource_types_and_names code w).2) = lookups (calls w).
Proof.
  destruct (resolution_steps (λ c, follows_locator c = true ∨ is_lookup c = false) code)
    with (w := w) as [(new & logs & -> & _ & _ & HP & _) _].
  - intros _ _. by right.
  - rewrite lookups_app.
    assert (lookups new = []) as ->; [|by rewrite app_nil_r].
    unfold lookups. induction HP as [|c cs Hc _ IH]; [done|].
    cbn [List.filter]. rewrite IH. by destruct c, Hc.
Qed.

(** X7: the sweep of one language calls the Asset Locator along the full
    cross product of the book codes and the USFM resource types of the
    language, book by book and, within a book, type by type in the order the
    resolution returned them: an initial part of that sequence always, and
    all of it, each triple once, when the sweep of the language returns. *)
Theorem language_sweep_lookups (lang : string * string * bool) (w w1 : World)
    (types books : list (string * string)) (fs2 : Fs.FS) :
  resource_types_and_names lang.1.1 w = (Ok types, w1) →
  book_codes_for_lang lang.1.1 (fs w1) = (Ok books, fs2) →
  ∃ made,
    lookups (calls (usfm_check_for_lang lang w).2) = lookups (calls w) ++ made ∧
    made `prefix_of` planned_lookups lang.1.1 books (usfm_only types) ∧
    ((usfm_check_for_lang lang w).1 = Ok () →
     made = planned_lookups lang.1.1 books (usfm_only types)).
Proof.
  intros Hres Hbooks.
  pose proof (resolution_no_lookup lang.1.1 w) as Hsame. rewrite Hres in Hsame.
  cbn [snd] in Hsame.
  rewrite (usfm_check_for_lang_run lang w w1 types books fs2) by done.
  destruct (tracks_for_each
    (λ book, for_each (usfm_only types) (λ rtype, usfm_check_triple lang book rtype))
    (λ book, map (λ rtype, UsfmResourceLookup lang.1.1 rtype.1 book.1) (usfm_only types))
    books) with (w := record_call w1 (BookCodesForLang lang.1.1) fs2)
    as (made & Hl & Hpre & Hok).
  { intros book. rewrite <- flat_map_singleton.
    apply tracks_for_each. intros rtype. apply triple_tracks. }
  exists made. split; [|split; [done|intros Hr; exact (Hok () Hr)]].
  rewrite Hl. cbn [calls record_call]. rewrite lookups_app.
  cbn. by rewrite app_nil_r, Hsame.
Qed.

(** X8: a language without work.  When the resolution leaves no USFM
    resource type, or the language has no book, the sweep of the language
    still asks for the book codes, then returns without calling the Asset
    Locator, logging or deleting anything. *)
Theorem language_without_work (lang : string * string * bool) (w w1 : World)
    (types books : list (string * string)) (fs2 : Fs.FS) :
  resource_types_and_names lang.1.1 w = (Ok types, w1) →
  book_codes_for_lang lang.1.1 (fs w1) = (Ok books, fs2) →
  usfm_only types = [] ∨ books = [] →
  usfm_check_for_lang lang w =
    (Ok (), record_call w1 (BookCodesForLang lang.1.1) fs2).
Proof.
  intros Hres Hbooks Hnone.
  rewrite (usfm_check_for_lang_run lang w w1 types books fs2) by done.
  destruct Hnone as [-> | ->]; [|done].
  generalize (record_call w1 (BookCodesForLang lang.1.1) fs2). clear.
  induction books as [|book books IH]; intros w; [done|].
  cbn [for_each]. unfold bind at 1. cbn. apply IH.
Qed.

Lemma main_steps (w : World) (langs : list (string * string * bool)) (fs1 : Fs.FS) :
  lang_codes_and_names (fs w) = (Ok langs, fs1) →
  grows (sweep_call langs) false (record_call w LangCodesAndNames fs1) (main w).2 ∧
  ((main w).1 = Ok () →
   grows (sweep_call langs) true (record_call w LangCodesAndNames fs1) (main w).2).
Proof.
  intros Hcat. unfold main. unfold bind at 1 2 3. rewrite call_run, Hcat. cbn [fst snd].
  destruct (steps_for_each (sweep_call langs) usfm_check_for_lang
    (List.filter (λ lang, negb lang.2) langs))
    with (w := record_call w LangCodesAndNames fs1) as [Hany Hok].
  { intros [[code name] gateway] [Hin Hheart]%list_elem_of_In%List.filter_In.
    cbn [snd] in Hheart. apply negb_true_iff in Hheart as ->.
    apply list_elem_of_In in Hin.
    apply language_steps; cbn [fst snd sweep_call].
    - done.
    - by exists name.
    - intros r b Hr. split; [by exists name|done].
    - by intros []. }
  split; [done|]. intros Hmain. by apply (Hok ()).
Qed.

(** X9: gateway languages are never swept.  After [main] obtained the
    language catalogue, every call it makes for book codes or to the Asset
    Locator is for a language the catalogue lists as not a gateway language,
    the Asset Locator only for configured USFM resource types; the catalogue
    is asked for exactly once. *)
Theorem main_sweeps_heart_languages (w : World)
    (langs : list (string * string * bool)) (fs1 : Fs.FS) :
  lang_codes_and_names (fs w) = (Ok langs, fs1) →
  ∃ new logs,
    calls (main w).2 = calls w ++ LangCodesAndNames :: new ∧
    log (main w).2 = log w ++ logs ∧
    Forall (sweep_call langs) new.
Proof.
  intros Hcat.
  destruct (main_steps w langs fs1 Hcat) as [(new & logs & Hcalls & Hlog & _ & HP & _) _].
  exists new, logs. cbn [calls log record_call] in *.
  by rewrite Hcalls, Hlog, <- app_assoc.
Qed.

(** X10: event records and provisioning.  Whatever [main] does, it only
    adds to the trace and to the log, and it never logs more event records
    than it made calls to the provisioner: a skipped triple logs nothing.
    When [main] returns, the two numbers are equal: every provisioned triple
    got exactly one event record. *)
Theorem main_events_match_provisions (w : World) :
  ∃ new logs,
    calls (main w).2 = calls w ++ new ∧
    log (main w).2 = log w ++ logs ∧
    events logs ≤ provisions new ∧
    ((main w).1 = Ok () → events logs = provisions new).
Proof.
  destruct (lang_codes_and_names (fs w)) as [[langs|e] fs1] eqn:Hcat.
  - destruct (main_steps w langs fs1 Hcat)
      as [(new & logs & Hcalls & Hlog & _ & _ & Hle) Hok].
    exists (LangCodesAndNames :: new), logs. cbn [calls log record_call] in *.
    rewrite Hcalls, Hlog, <- app_assoc. repeat split; [done|].
    intros Hmain.
    destruct (Hok Hmain) as (new' & logs' & Hcalls' & Hlog' & _ & _ & Heq).
    cbn [calls log record_call] in *.
    rewrite Hcalls in Hcalls'. rewrite Hlog in Hlog'.
    apply app_inv_head in Hcalls', Hlog'. by subst.
  - exists [LangCodesAndNames], []. unfold main, bind. rewrite call_run, Hcat.
    cbn. rewrite app_nil_r. repeat split; first [done | lia].
Qed.

End LanguageTrace.

(** ** Two runs of the body of the loop *)

Section TripleRuns.
Context `{cfg : Settings} `{ext : Collaborators}.
Variables (lang : string * string * bool) (book rtype : string * string).

Lemma exists_after_delete (cwd dir : string) (fs : Fs.FS) (ps : list string) :
  Fs.resolve cwd dir = ps → ps ≠ [] →
  Fs.exists_ cwd dir (Fs.delete_tree cwd dir fs) = false.
Proof.
  intros Hres Hne. unfold Fs.exists_, Fs.delete_tree. rewrite Hres.
  rewrite bool_decide_eq_false_2 by done.
  rewrite bool_decide_eq_false_2; [by rewrite andb_false_r|].
  rewrite elem_of_filter. intros [Hnot _]. by apply Hnot.
Qed.

(** X11: the successful triple.  When the content file is found and renders
    to more than 300 characters, the body logs [parses to HTML fine] for the
    directory the provisioner returned and applies retention to that
    directory, which ends the body.  When moreover that directory lies below
    a parent named ["temp"], is not itself named ["temp"] and its path has no
    [".."], the directory itself is handed to the tree deletion primitive,
    exactly the nodes at or below it disappear, and afterwards the directory
    no longer exists. *)
Theorem successful_triple (w : World) (dto : ResourceLookupDto) (fs1 : Fs.FS)
    (dir : string) (fs2 : Fs.FS) (file : option string) (fs3 : Fs.FS)
    (text : string) (fs4 : Fs.FS) :
  usfm_resource_lookup lang.1.1 rtype.1 book.1 (fs w) = (Ok dto, fs1) →
  Fs.exists_ (cwd w) (canonical_directory dto) fs1 = false →
  provision_asset_files dto fs1 = (Ok dir, fs2) →
  usfm_asset_file dto dir fs2 = (Ok file, fs3) →
  Py.truthy file = true →
  usfm_asset_html file dto fs3 = (Ok (Some text), fs4) →
  300 < String.length text →
  ∃ w3 w',
    usfm_check_triple lang book rtype w = (Ok (), w') ∧
    delete_asset dir "temp" w3 = (Ok (), w') ∧
    log w3 = log w ++ [Debug (context_of dto file dir parsed_ok)] ∧
    calls w3 = calls w ++
      [locator_call lang book rtype; ProvisionAssetFiles dto;
       UsfmAssetFile dto dir; UsfmAssetHtml file dto] ∧
    fs w3 = fs4 ∧ cwd w3 = cwd w ∧
    log w' = log w3 ∧
    ∀ qs n,
      Pathlib.parts (Pathlib.Path dir) ≠ [] →
      components (cwd w) dir = qs ++ ["temp"; n] →
      n ≠ "temp" →
      no_dotdot (qs ++ ["temp"; n]) →
      calls w' = calls w3 ++ [DeleteTree dir] ∧
      (∀ node, node ∈ fs w' ↔ node ∈ fs4 ∧ ¬ (qs ++ ["temp"; n]) `prefix_of` node) ∧
      Fs.exists_ (cwd w') dir (fs w') = false.
Proof.
  intros Hlookup Hexists Hprov Hfile Htruthy Hhtml Hlen.
  rewrite usfm_check_triple_run, Hlookup. cbn zeta. rewrite Hexists, Hprov.
  unfold bind at 1. rewrite extract_run. cbn [fs record_call].
  rewrite Hfile, Hhtml. cbn [fst snd].
  assert (text ≠ "") as Htext by (intros ->; cbn in Hlen; lia).
  rewrite classify_fine; [|done|by apply truthy_Some|].
  2: { rewrite short_html_Some by done. apply Nat.leb_gt. lia. }
  unfold bind, log_event, emit.
  match goal with |- context [delete_asset dir "temp" ?w0] => set (w3 := w0) end.
  destruct (delete_asset_frame dir "temp" w3) as (w' & Hrun & Hlog & Hcwd).
  exists w3, w'. rewrite Hrun.
  split; [done|]. split; [done|].
  split; [by subst w3; cbn [log record_log record_call]|].
  split; [by subst w3; cbn [calls record_log record_call]; rewrite <- !app_assoc|].
  split; [done|]. split; [done|]. split; [done|].
  intros qs n Hne Hcomp Hn Hdots.
  destruct (delete_asset_keeps_parent dir "temp" w3 qs n) as [Hdel Hfs]; [done..|].
  rewrite Hdel in Hrun. injection Hrun as <-.
  subst w3. cbn [calls fs cwd record_call record_log] in *.
  split; [done|]. split; [exact Hfs|].
  apply (exists_after_delete _ _ _ (qs ++ ["temp"; n])).
  - rewrite resolve_components; [done|]. by rewrite Hcomp.
  - by destruct qs.
Qed.

(** X12: no content file.  When locating returns no file (or an empty
    name) the renderer is called all the same, with that value; whatever it
    returns or raises, the event logged is [content_file is None] and the
    tree deletion primitive is not called. *)
Theorem rendering_called_without_file (w : World) (dto : ResourceLookupDto)
    (fs1 : Fs.FS) (dir : string) (fs2 : Fs.FS) (file : option string) (fs3 : Fs.FS) :
  usfm_resource_lookup lang.1.1 rtype.1 book.1 (fs w) = (Ok dto, fs1) →
  Fs.exists_ (cwd w) (canonical_directory dto) fs1 = false →
  provision_asset_files dto fs1 = (Ok dir, fs2) →
  usfm_asset_file dto dir fs2 = (Ok file, fs3) →
  Py.truthy file = false →
  ∃ w', usfm_check_triple lang book rtype w = (Ok (), w') ∧
        calls w' = calls w ++
          [locator_call lang book rtype; ProvisionAssetFiles dto;
           UsfmAssetFile dto dir; UsfmAssetHtml file dto] ∧
        log w' = log w ++
          match (usfm_asset_html file dto fs3).1 with
          | Raise e => [ExceptionTrace failure_message e]
          | Ok _ => []
          end ++ [Debug (context_of dto file dir content_file_missing)] ∧
        fs w' = (usfm_asset_html file dto fs3).2.
Proof.
  intros Hlookup Hexists Hprov Hfile Hfalsy.
  rewrite usfm_check_triple_run, Hlookup. cbn zeta. rewrite Hexists, Hprov.
  unfold bind at 1. rewrite extract_run. cbn [fs record_call]. rewrite Hfile.
  destruct (usfm_asset_html file dto fs3) as [[html|e] fs4]; cbn [fst snd];
    rewrite classify_no_file by done; unfold log_event, emit;
    eexists; (split; [reflexivity|]);
    cbn [calls log fs record_call record_log]; by rewrite <- !app_assoc.
Qed.

End TripleRuns.

(** ** Resolution: a matching entry without configured records *)

Section EmptyResolution.
Context `{cfg : Settings} `{ext : Collaborators}.

(** X13: when the last entry of the feed that matches the language has no
    record with a configured code, the resolution returns the empty list; it
    does not raise, unlike for a language that no entry matches. *)
Theorem resolution_without_configured_codes (lang_code : string) (w : World)
    (data : list LangEntry) (fs1 : Fs.FS) (earlier : list LangEntry) (item : LangEntry) :
  lang_code ≠ "en" → lang_code ≠ "id" →
  fetch_source_data RESOURCE_ASSETS_DIR TRANSLATIONS_JSON_LOCATION (fs w) = (Ok data, fs1) →
  matching lang_code data = earlier ++ [item] →
  (∀ entry, entry ∈ contents item → rt_code entry ∉ configured_codes) →
  resource_types_and_names lang_code w = (Ok [], record_call w fetch_call fs1).
Proof.
  intros Hen Hid Hfetch Hlast Hnone.
  rewrite (resource_types_and_names_run _ _ data fs1) by done.
  rewrite (assign_values_last lang_code data earlier item) by done.
  assert (kept_pairs item = []) as ->; [|done].
  unfold kept_pairs.
  induction (contents item) as [|entry entries IH]; [done|].
  cbn [List.filter]. rewrite bool_decide_eq_false_2 by (apply Hnone; left).
  apply IH. intros other Hin. apply Hnone. by right.
Qed.

End EmptyResolution.

(** ** The order of the records in the feed does not matter *)

Lemma ascii_compare_lt_trans (x y z : ascii) :
  Ascii.compare x y = Lt → Ascii.compare y z = Lt → Ascii.compare x z = Lt.
Proof.
  unfold Ascii.compare. rewrite !N.compare_lt_iff. apply N.lt_trans.
Qed.

Lemma compare_not_gt_trans (a b c : string) :
  String.compare a b ≠ Gt → String.compare b c ≠ Gt → String.compare a c ≠ Gt.
Proof.
  revert b c. induction a as [|x a IH]; intros b c Hab Hbc.
  - by destruct c.
  - destruct b as [|y b]; [done|]. destruct c as [|z c]; [done|].
    cbn [String.compare] in *.
    destruct (Ascii.compare x y) eqn:Hxy; [| |done].
    + apply Ascii.compare_eq_iff in Hxy as ->.
      destruct (Ascii.compare y z); [by apply (IH b)|done|done].
    + destruct (Ascii.compare y z) eqn:Hyz; [| |done].
      * apply Ascii.compare_eq_iff in Hyz as ->. by rewrite Hxy.
      * by rewrite (ascii_compare_lt_trans x y z).
Qed.

Lemma leb_not_gt (a b : string) : String.leb a b = true ↔ String.compare a b ≠ Gt.
Proof. unfold String.leb. by destruct (String.compare a b). Qed.

Section SortedUnique.
Context {A : Type} (key : A → string).

Lemma key_le_trans : Transitive (key_le key).
Proof.
  intros a b c. unfold key_le. rewrite !leb_not_gt. apply compare_not_gt_trans.
Qed.

Lemma key_le_refl (a : A) : key_le key a a.
Proof. unfold key_le. apply leb_not_gt. by rewrite compare_refl. Qed.

(** The head of a sorted list is below every element of the list. *)
Lemma sorted_head_least (x : A) (l : list A) (y : A) :
  Sorted (key_le key) (x :: l) → y ∈ x :: l → key_le key x y.
Proof.
  intros Hs%(Sorted_StronglySorted key_le_trans) Hy.
  apply StronglySorted_inv in Hs as [_ Hall].
  apply elem_of_cons in Hy as [->|Hy]; [apply key_le_refl|].
  rewrite List.Forall_forall in Hall. apply Hall. by apply list_elem_of_In.
Qed.

(** Two sorted lists with the same elements, all of different keys, are
    equal. *)
Lemma sorted_unique (l1 l2 : list A) :
  Sorted (key_le key) l1 → Sorted (key_le key) l2 →
  l1 ≡ₚ l2 → NoDup (map key l1) → l1 = l2.
Proof.
  revert l2. induction l1 as [|x l1 IH]; intros l2 Hs1 Hs2 Hperm Hnd.
  - by apply Permutation_nil in Hperm.
  - destruct l2 as [|y l2]; [by apply Permutation_sym, Permutation_nil_cons in Hperm|].
    assert (y ∈ x :: l1) as Hy by (rewrite Hperm; left).
    assert (x ∈ y :: l2) as Hx by (rewrite <- Hperm; left).
    assert (key x = key y) as Hkey.
    { apply String.leb_antisym.
      - by apply (sorted_head_least x l1 y).
      - by apply (sorted_head_least y l2 x). }
    assert (y = x) as ->.
    { apply elem_of_cons in Hy as [->|Hy]; [done|]. exfalso.
      cbn [map] in Hnd. apply NoDup_cons in Hnd as [Hnot _].
      apply Hnot. rewrite Hkey. by apply list_elem_of_fmap_2. }
    f_equal. apply IH.
    + by apply Sorted_inv in Hs1 as [? _].
    + by apply Sorted_inv in Hs2 as [? _].
    + by apply Permutation_cons_inv in Hperm.
    + cbn [map] in Hnd. by apply NoDup_cons in Hnd as [_ ?].
Qed.

End SortedUnique.

Lemma filter_perm {A} (f : A → bool) (l1 l2 : list A) :
  l1 ≡ₚ l2 → List.filter f l1 ≡ₚ List.filter f l2.
Proof.
  induction 1 as [|x l1 l2 _ IH|x y l|l1 l2 l3 _ IH1 _ IH2]; cbn [List.filter].
  - done.
  - destruct (f x); [by constructor|done].
  - destruct (f x), (f y); try done. apply Permutation_swap.
  - by etrans.
Qed.

Section OrderIndependent.
Context `{cfg : Settings} `{ext : Collaborators}.

(** X14: the order of the records of an entry does not matter.  When the
    matching entries of two feeds hold the same records, in any order, and
    the configured ones among them have different codes, the resolution
    returns the same list for both. *)
Theorem resolution_order_independent (lang_code : string) (w1 w2 : World)
    (data1 data2 : list LangEntry) (fs1 fs2 : Fs.FS)
    (earlier1 earlier2 : list LangEntry) (item1 item2 : LangEntry) :
  lang_code ≠ "en" → lang_code ≠ "id" →
  fetch_source_data RESOURCE_ASSETS_DIR TRANSLATIONS_JSON_LOCATION (fs w1) = (Ok data1, fs1) →
  fetch_source_data RESOURCE_ASSETS_DIR TRANSLATIONS_JSON_LOCATION (fs w2) = (Ok data2, fs2) →
  matching lang_code data1 = earlier1 ++ [item1] →
  matching lang_code data2 = earlier2 ++ [item2] →
  contents item1 ≡ₚ contents item2 →
  NoDup (map fst (kept_pairs item1)) →
  (resource_types_and_names lang_code w1).1 = (resource_types_and_names lang_code w2).1.
Proof.
  intros Hen Hid Hfetch1 Hfetch2 Hlast1 Hlast2 Hperm Hnd.
  rewrite (resource_types_and_names_run _ _ data1 fs1) by done.
  rewrite (resource_types_and_names_run _ _ data2 fs2) by done.
  rewrite (assign_values_last lang_code data1 earlier1 item1) by done.
  rewrite (assign_values_last lang_code data2 earlier2 item2) by done.
  cbn [fst]. f_equal.
  assert (kept_pairs item1 ≡ₚ kept_pairs item2) as Hkept.
  { unfold kept_pairs. by apply Permutation_map, filter_perm. }
  apply (sorted_unique fst).
  - apply sorted_sorted.
  - apply sorted_sorted.
  - by rewrite !sorted_perm.
  - assert (map fst (Py.sorted fst (kept_pairs item1)) ≡ₚ map fst (kept_pairs item1))
      as -> by apply Permutation_map, sorted_perm.
    done.
Qed.

End OrderIndependent.

(** ** The further theorems at work on the concrete deployment *)

Module MoreExamples.
Import Scenario Cases.

Lemma delete_asset_target_not_preserved_witness :
  ∃ w', delete_asset "/working/temp/auh_ulb" "temp" resumed = (Ok (), w') ∧
        log w' = log resumed ∧
        ((calls w' = calls resumed ∧ fs w' = fs resumed) ∨
         ∃ target root,
           calls w' = calls resumed ++ [DeleteTree target] ∧
           (target = parent_dir_of (cwd resumed) "/working/temp/auh_ulb" ∧
            root = List.removelast (components (cwd resumed) "/working/temp/auh_ulb") ∨
            target = "/working/temp/auh_ulb" ∧
            root = components (cwd resumed) "/working/temp/auh_ulb") ∧
           Fs.resolve (cwd resumed) target = root ∧
           List.last root "" ≠ "temp" ∧
           Pathlib.name (Pathlib.Path target) ≠ "temp" ∧
           (∀ node, node ∈ fs w' ↔ node ∈ fs resumed ∧ ¬ root `prefix_of` node)) ∧
        (List.last (List.removelast (components (cwd resumed) "/working/temp/auh_ulb")) ""
           = "temp" →
         List.removelast (components (cwd resumed) "/working/temp/auh_ulb") ∈ fs resumed →
         List.removelast (components (cwd resumed) "/working/temp/auh_ulb") ∈ fs w').
Proof.
  apply (delete_asset_target_not_preserved "/working/temp/auh_ulb" "temp" resumed).
  - reflexivity.
  - by vm_compute.
  - unfold no_dotdot. change (components (cwd resumed) "/working/temp/auh_ulb")
      with ["working"; "temp"; "auh_ulb"].
    repeat (constructor; [discriminate|]). constructor.
Defined.

Lemma delete_asset_under_preserved_witness :
  ∃ w', delete_asset "/working/temp/auh_ulb" "temp" resumed = (Ok (), w') ∧
        calls w' = calls resumed ++ [DeleteTree "/working/temp/auh_ulb"] ∧
        (∀ node, node ∈ fs w' ↔
           node ∈ fs resumed ∧ ¬ (["working"] ++ ["temp"; "auh_ulb"]) `prefix_of` node) ∧
        (["working"] ++ ["temp"] ∈ fs resumed → ["working"] ++ ["temp"] ∈ fs w').
Proof.
  apply (delete_asset_under_preserved "/working/temp/auh_ulb" "temp" resumed
           ["working"] "auh_ulb").
  - by vm_compute.
  - reflexivity.
  - discriminate.
  - unfold no_dotdot. repeat (constructor; [discriminate|]). constructor.
Defined.

Lemma delete_asset_removes_parent_witness :
  ∃ w', delete_asset "/a/temp" "temp" scratch = (Ok (), w') ∧
        calls w' = calls scratch ++ [DeleteTree (parent_dir_of (cwd scratch) "/a/temp")] ∧
        (∀ node, node ∈ fs w' ↔ node ∈ fs scratch ∧ ¬ ([] ++ ["a"]) `prefix_of` node) ∧
        (∀ sibling, [] ++ ["a"; sibling] ∉ fs w').
Proof.
  apply (delete_asset_removes_parent "/a/temp" "temp" scratch [] "a" "temp").
  - reflexivity.
  - by vm_compute.
  - reflexivity.
  - discriminate.
  - unfold no_dotdot. repeat (constructor; [discriminate|]). constructor.
Defined.

Lemma delete_asset_at_root_witness :
  ∃ w', delete_asset "/temp" "temp" scratch = (Ok (), w') ∧
        calls w' = calls scratch ++ [DeleteTree (parent_dir_of (cwd scratch) "/temp")] ∧
        fs w' = ∅.
Proof.
  apply (delete_asset_at_root "/temp" "temp" scratch "temp").
  - by vm_compute.
  - reflexivity.
  - discriminate.
Defined.

Lemma language_sweep_lookups_witness :
  ∃ made,
    lookups (calls (usfm_check_for_lang (cfg := settings) (ext := steady) lang fresh).2)
      = lookups (calls fresh) ++ made ∧
    made `prefix_of`
      planned_lookups "auh" [gen; ("exo", "Exodus")] (usfm_only (cfg := settings) auh_types) ∧
    ((usfm_check_for_lang (cfg := settings) (ext := steady) lang fresh).1 = Ok () →
     made = planned_lookups "auh" [gen; ("exo", "Exodus")]
              (usfm_only (cfg := settings) auh_types)).
Proof.
  apply (language_sweep_lookups (cfg := settings) (ext := steady) lang fresh fetched
           auh_types [gen; ("exo", "Exodus")] (fs fetched)).
  - by vm_compute.
  - reflexivity.
Defined.

Lemma language_without_work_witness :
  usfm_check_for_lang (cfg := settings) (ext := notes_only) lang fresh =
    (Ok (), record_call fetched (BookCodesForLang "auh") (fs fetched)).
Proof.
  apply (language_without_work (cfg := settings) (ext := notes_only) lang fresh fetched
           [("tn", "Notes (tn)")] [gen; ("exo", "Exodus")] (fs fetched)).
  - by vm_compute.
  - reflexivity.
  - left. reflexivity.
Defined.

Lemma main_sweeps_heart_languages_witness :
  ∃ new logs,
    calls (main (cfg := settings) (ext := steady) fresh).2
      = calls fresh ++ LangCodesAndNames :: new ∧
    log (main (cfg := settings) (ext := steady) fresh).2 = log fresh ++ logs ∧
    Forall (sweep_call (cfg := settings) catalogue) new.
Proof.
  apply (main_sweeps_heart_languages (cfg := settings) (ext := steady) fresh
           catalogue (fs fresh)).
  reflexivity.
Defined.

Lemma successful_triple_witness :
  ∃ w3 w',
    usfm_check_triple (ext := steady) lang gen ulb fresh = (Ok (), w') ∧
    delete_asset "/working/temp/auh_ulb" "temp" w3 = (Ok (), w') ∧
    log w3 = log fresh ++
      [Debug (context_of (dto "auh" "ulb" "gen") (Some "/working/temp/auh_ulb/gen.usfm")
                "/working/temp/auh_ulb" parsed_ok)] ∧
    calls w3 = calls fresh ++
      [locator_call lang gen ulb; ProvisionAssetFiles (dto "auh" "ulb" "gen");
       UsfmAssetFile (dto "auh" "ulb" "gen") "/working/temp/auh_ulb";
       UsfmAssetHtml (Some "/working/temp/auh_ulb/gen.usfm") (dto "auh" "ulb" "gen")] ∧
    fs w3 = {[ ["working"; "temp"; "auh_ulb"] ]} ∪ fs fresh ∧ cwd w3 = cwd fresh ∧
    log w' = log w3 ∧
    ∀ qs n,
      Pathlib.parts (Pathlib.Path "/working/temp/auh_ulb") ≠ [] →
      components (cwd fresh) "/working/temp/auh_ulb" = qs ++ ["temp"; n] →
      n ≠ "temp" →
      no_dotdot (qs ++ ["temp"; n]) →
      calls w' = calls w3 ++ [DeleteTree "/working/temp/auh_ulb"] ∧
      (∀ node, node ∈ fs w' ↔
         node ∈ {[ ["working"; "temp"; "auh_ulb"] ]} ∪ fs fresh ∧
         ¬ (qs ++ ["temp"; n]) `prefix_of` node) ∧
      Fs.exists_ (cwd w') "/working/temp/auh_ulb" (fs w') = false.
Proof.
  apply (successful_triple (ext := steady) lang gen ulb fresh
           (dto "auh" "ulb" "gen") (fs fresh) "/working/temp/auh_ulb"
           ({[ ["working"; "temp"; "auh_ulb"] ]} ∪ fs fresh)
           (Some "/working/temp/auh_ulb/gen.usfm")
           ({[ ["working"; "temp"; "auh_ulb"] ]} ∪ fs fresh)
           (xs 500)
           ({[ ["working"; "temp"; "auh_ulb"] ]} ∪ fs fresh)).
  - reflexivity.
  - by vm_compute.
  - reflexivity.
  - reflexivity.
  - reflexivity.
  - reflexivity.
  - apply Nat.ltb_lt. by vm_compute.
Defined.

Lemma rendering_called_without_file_witness :
  ∃ w', usfm_check_triple (ext := no_file) lang gen ulb fresh = (Ok (), w') ∧
        calls w' = calls fresh ++
          [locator_call lang gen ulb; ProvisionAssetFiles (dto "auh" "ulb" "gen");
           UsfmAssetFile (dto "auh" "ulb" "gen") "/working/temp/auh_ulb";
           UsfmAssetHtml None (dto "auh" "ulb" "gen")] ∧
        log w' = log fresh ++
          match (usfm_asset_html (Collaborators := no_file) None (dto "auh" "ulb" "gen")
                   ({[ ["working"; "temp"; "auh_ulb"] ]} ∪ fs fresh)).1 with
          | Raise e => [ExceptionTrace failure_message e]
          | Ok _ => []
          end ++
          [Debug (context_of (dto "auh" "ulb" "gen") None "/working/temp/auh_ulb"
                    content_file_missing)] ∧
        fs w' = (usfm_asset_html (Collaborators := no_file) None (dto "auh" "ulb" "gen")
                   ({[ ["working"; "temp"; "auh_ulb"] ]} ∪ fs fresh)).2.
Proof.
  apply (rendering_called_without_file (ext := no_file) lang gen ulb fresh
           (dto "auh" "ulb" "gen") (fs fresh) "/working/temp/auh_ulb"
           ({[ ["working"; "temp"; "auh_ulb"] ]} ∪ fs fresh) None
           ({[ ["working"; "temp"; "auh_ulb"] ]} ∪ fs fresh)).
  - reflexivity.
  - by vm_compute.
  - reflexivity.
  - reflexivity.
  - reflexivity.
Defined.

Lemma resolution_without_configured_codes_witness :
  resource_types_and_names (cfg := settings) (ext := stories_only) "auh" fresh =
    (Ok [], record_call fresh (fetch_call (cfg := settings)) (fs fresh)).
Proof.
  apply (resolution_without_configured_codes (cfg := settings) (ext := stories_only)
           "auh" fresh [auh_stories] (fs fresh) [] auh_stories).
  - discriminate.
  - discriminate.
  - reflexivity.
  - reflexivity.
  - intros entry ->%list_elem_of_singleton.
    apply (bool_decide_unpack _). by vm_compute.
Defined.

Lemma resolution_order_independent_witness :
  (resource_types_and_names (cfg := settings) (ext := cached_feed) "auh" fresh).1 =
  (resource_types_and_names (cfg := settings) (ext := cached_feed) "auh" with_cache).1.
Proof.
  apply (resolution_order_independent (cfg := settings) (ext := cached_feed)
           "auh" fresh with_cache feed [auh_reversed; abz] (fs fresh) (fs with_cache)
           [] [] auh auh_reversed).
  - discriminate.
  - discriminate.
  - cbv [fetch_source_data cached_feed].
    by assert (Fs.exists_ "/" cache (fs fresh) = false) as -> by (by vm_compute).
  - cbv [fetch_source_data cached_feed].
    by assert (Fs.exists_ "/" cache (fs with_cache) = true) as -> by (by vm_compute).
  - reflexivity.
  - reflexivity.
  - apply Permutation_rev.
  - apply (bool_decide_unpack _). by vm_compute.
Defined.

(** The whole sweep of the deployment: six triples, each provisioned,
    logged as [parses to HTML fine] and deleted again. *)
Example main_on_deployment :
  (main (cfg := settings) (ext := steady) fresh).1 = Ok () ∧
  lookups (calls (main (cfg := settings) (ext := steady) fresh).2) =
    [UsfmResourceLookup "auh" "reg" "gen"; UsfmResourceLookup "auh" "ulb" "gen";
     UsfmResourceLookup "auh" "reg" "exo"; UsfmResourceLookup "auh" "ulb" "exo";
     UsfmResourceLookup "abz" "reg" "gen"; UsfmResourceLookup "abz" "reg" "exo"] ∧
  events (log (main (cfg := settings) (ext := steady) fresh).2) = 6 ∧
  provisions (calls (main (cfg := settings) (ext := steady) fresh).2) = 6.
Proof. repeat split; by vm_compute. Qed.

End MoreExamples.
